(** * goal-tracker: the rules, gating and analytics core of [src/app.ts]

    A shallow embedding of the pure part of the [GoalTrackerApp]
    component: the day model and its completeness rule, the week and
    month plans with their confirmation flags, the pass-conflict scan,
    the weight averages and the blocking-overlay sequencer, followed by
    the properties the specification states about them.

    Layout: the JavaScript built-ins the code leans on ([Number],
    [String], [padStart], [split], [Date]) come first, then the data
    model, the functions of [app.ts] in source order, the vocabulary of
    the specification and some sample data; the theorems follow, the
    calendar first. *)

From Stdlib Require Import ZArith QArith Qcanon String Ascii List Lia DecimalString.
From Stdlib Require Import Decimal DecimalPos DecimalZ.
From Stdlib Require Import Lqa Sorted.
From stdpp Require Import gmap strings list.

Open Scope Z_scope.

(* ===================================================================== *)
(** * JavaScript built-ins                                                *)
(* ===================================================================== *)

Module JS.

(** ** Numbers

    A JavaScript number is a binary64 float.  The code only ever asks
    one question of a weight, [Number.isFinite], and otherwise adds and
    divides.  The model keeps the split the code tests (finite, NaN, the
    two infinities) and computes on finite values exactly, in canonical
    rationals; binary64 rounding, overflow and the sign of zero are not
    represented. *)

Inductive number : Type :=
| Fin (q : Qc)
| NaN
| Infinity (negative : bool).

Definition of_Z (z : Z) : number := Fin (Q2Qc (inject_Z z)).
Definition of_nat (n : nat) : number := of_Z (Z.of_nat n).




(** [Number.isFinite(v)]: no coercion, so [undefined] and [null] (both
    [None] here) are not finite. *)
Definition Number_isFinite (v : option number) : bool :=
  match v with
  | Some (Fin _) => true
  | _ => false
  end.

(** ** Integers in date arithmetic

    The fields of a date are integers or NaN: [option Z], [None] for
    NaN. *)

Definition int := option Z.

Definition int_add (a b : int) : int :=
  match a, b with Some x, Some y => Some (x + y) | _, _ => None end.

Definition int_neg (a : int) : int :=
  match a with Some x => Some (- x) | None => None end.

(** [String(n)] *)
Definition String_ (n : int) : string :=
  match n with
  | Some z => NilZero.string_of_int (Z.to_int z)
  | None => "NaN"
  end.

Definition digit_of (c : ascii) : option Z :=
  let n := nat_of_ascii c in
  if ((48 <=? n) && (n <=? 57))%nat then Some (Z.of_nat (n - 48)) else None.

Fixpoint digits_value (acc : Z) (s : string) : option Z :=
  match s with
  | EmptyString => Some acc
  | String c rest =>
      match digit_of c with
      | Some d => digits_value (10 * acc + d) rest
      | None => None
      end
  end.

(** [Number(s)] on the pieces of a date string: a run of decimal digits
    is its value and the empty string is 0.  Every other string is read
    as NaN; JavaScript also accepts signs, fractions, exponents, radix
    prefixes and surrounding blanks, none of which a date written by
    [formatDate] contains. *)
Definition Number (s : string) : int := digits_value 0 s.

(** [s.padStart(n, c)] for a one-character filler. *)
Fixpoint repeat_char (n : nat) (c : ascii) : string :=
  match n with
  | O => EmptyString
  | S k => String c (repeat_char k c)
  end.

Definition padStart (n : nat) (c : ascii) (s : string) : string :=
  (repeat_char (n - String.length s) c ++ s)%string.

(** [s.split(sep)] for a one-character separator. *)
Fixpoint split (sep : ascii) (s : string) : list string :=
  match s with
  | EmptyString => [EmptyString]
  | String c rest =>
      if Ascii.eqb c sep then EmptyString :: split sep rest
      else match split sep rest with
           | [] => [String c EmptyString]
           | piece :: pieces => String c piece :: pieces
           end
  end.

(** ** Dates

    The code builds every [Date] from local year, month and day and
    reads it back through the local getters, so a valid [Date] is known
    by its local calendar day, counted from 1970-01-01; the time of day
    of [new Date()] is never looked at.  An invalid [Date] has the time
    value NaN.  The calendar is the proleptic Gregorian one, as in
    ECMAScript; the limit of 10^8 days on either side of the epoch is not
    represented. *)

Inductive Date : Type :=
| Invalid
| LocalDay (n : Z).

(** Day number of the civil date [y]-[m]-[d], [m] in 1..12. *)
Definition days_from_civil (y m d : Z) : Z :=
  let y' := if m <=? 2 then y - 1 else y in
  let era := y' / 400 in
  let yoe := y' - era * 400 in
  let mp := if 2 <? m then m - 3 else m + 9 in
  let doy := (153 * mp + 2) / 5 + d - 1 in
  let doe := yoe * 365 + yoe / 4 - yoe / 100 + doy in
  era * 146097 + doe - 719468.

(** Year, month (1..12) and day of the month of a day number. *)
Definition civil_from_days (z : Z) : Z * Z * Z :=
  let z' := z + 719468 in
  let era := z' / 146097 in
  let doe := z' - era * 146097 in
  let yoe := (doe - doe / 1460 + doe / 36524 - doe / 146096) / 365 in
  let doy := doe - (365 * yoe + yoe / 4 - yoe / 100) in
  let mp := (5 * doy + 2) / 153 in
  let d := doy - (153 * mp + 2) / 5 + 1 in
  let m := if mp <? 10 then mp + 3 else mp - 9 in
  let y := yoe + era * 400 in
  (if m <=? 2 then y + 1 else y, m, d).

(** [MakeDay]: months outside 0..11 carry into the year, days outside
    the month carry into the neighbouring months. *)
Definition MakeDay (year month date : Z) : Z :=
  let ym := year + month / 12 in
  let mn := month mod 12 in
  days_from_civil ym (mn + 1) 1 + date - 1.

(** [new Date(year, month, day)]; a year in 0..99 means 1900 + year. *)
Definition new_Date (year month day : int) : Date :=
  match year, month, day with
  | Some y, Some m, Some d =>
      let yr := if (0 <=? y) && (y <=? 99) then 1900 + y else y in
      LocalDay (MakeDay yr m d)
  | _, _, _ => Invalid
  end.

Definition getFullYear (date : Date) : int :=
  match date with
  | LocalDay n => Some (fst (fst (civil_from_days n)))
  | Invalid => None
  end.

(** [getMonth()] counts from 0. *)
Definition getMonth (date : Date) : int :=
  match date with
  | LocalDay n => Some (snd (fst (civil_from_days n)) - 1)
  | Invalid => None
  end.

Definition getDate (date : Date) : int :=
  match date with
  | LocalDay n => Some (snd (civil_from_days n))
  | Invalid => None
  end.

(** [getDay()]: 0 is Sunday; 1970-01-01 was a Thursday. *)
Definition getDay (date : Date) : int :=
  match date with
  | LocalDay n => Some ((n + 4) mod 7)
  | Invalid => None
  end.

(** [a < b] on dates compares time values; NaN compares false. *)
Definition Date_lt (a b : Date) : bool :=
  match a, b with
  | LocalDay x, LocalDay y => x <? y
  | _, _ => false
  end.

End JS.

(* ===================================================================== *)
(** * Data model                                                          *)
(* ===================================================================== *)

Definition ISODate := string.

(** [type YesNo = 'yes' | 'no' | null] *)
Inductive YesNo : Type := yes | no | null.

#[global] Instance YesNo_eq_dec : EqDecision YesNo.
Proof. solve_decision. Defined.

Inductive DietKey : Type :=
| nonKetoFruits
| highCarbDairy
| processedFoods
| starchyVeggies
| refinedCarbs.

#[global] Instance DietKey_eq_dec : EqDecision DietKey.
Proof. solve_decision. Defined.

Definition DietKey_code (k : DietKey) : nat :=
  match k with
  | nonKetoFruits => 0 | highCarbDairy => 1 | processedFoods => 2
  | starchyVeggies => 3 | refinedCarbs => 4
  end%nat.

Definition DietKey_decode (n : nat) : option DietKey :=
  match n with
  | 0 => Some nonKetoFruits | 1 => Some highCarbDairy
  | 2 => Some processedFoods | 3 => Some starchyVeggies
  | 4 => Some refinedCarbs | _ => None
  end%nat.

#[global] Instance DietKey_countable : Countable DietKey.
Proof.
  apply (inj_countable DietKey_code DietKey_decode).
  intros []; reflexivity.
Defined.

(** The keys of [DIET_RULES], in order; the labels are presentation. *)
Definition DIET_RULES : list DietKey :=
  [nonKetoFruits; highCarbDairy; processedFoods; starchyVeggies; refinedCarbs].

(** [DietChecks]: an object with the diet keys as properties.  A key a
    persisted object lacks has no entry; a record without a [diet]
    property is the same as one with the empty object wherever the code
    spreads it. *)
Abbreviation DietChecks := (gmap DietKey YesNo).

(** [DayRecord] as a JavaScript object: any property can be missing from
    a record that was read back from storage, so every field is
    optional, [None] standing for a missing property or [undefined]. *)
Record DayRecord : Type := {
  date : option ISODate;
  diet : DietChecks;
  dietException : option YesNo;
  dessertPass : option YesNo;
  mealPass : option YesNo;
  weightMorning : option JS.number;
  weightNight : option JS.number;
  weightMorningMissed : option bool;
  weightNightMissed : option bool;
  weightLiftingDone : option YesNo;
  waterFastDone : option YesNo;
}.

Record WeekPlan : Type := { week_dates : list ISODate }.
Record FastPlan : Type := { fast_dates : list ISODate }.

(** [Record<ISODate, DayRecord>] is walked with [Object.keys], so it is
    kept as the list of its properties in insertion order (the order
    [Object.keys] reports for keys that are not array indices).  The
    other four objects are only read and written by key.  The keys are
    dates, week keys and month keys; none of them is the name of a
    property that a plain object inherits. *)
Record AppState : Type := {
  days : list (ISODate * DayRecord);
  weekPlans : gmap string WeekPlan;
  fastPlans : gmap string FastPlan;
  trackingStart : ISODate;
  confirmedWeeks : gmap string bool;
  confirmedMonths : gmap string bool;
}.

(** [BlockingOverlay], tagged by its [type] property. *)
Module Overlay.
Inductive t : Type :=
| month (monthKey : string)
| week (weekKey : string)
| yesterday (date : ISODate).
End Overlay.
Abbreviation BlockingOverlay := Overlay.t.

(** Property names used as arguments. *)
Module PassKey.
Inductive t : Type := dessertPass | mealPass.
#[global] Instance eq_dec : EqDecision t.
Proof. solve_decision. Defined.
End PassKey.

Module WeightKey.
Inductive t : Type := weightMorning | weightNight.
#[global] Instance eq_dec : EqDecision t.
Proof. solve_decision. Defined.
End WeightKey.

Module YesNoKey.
Inductive t : Type :=
| dietException | dessertPass | mealPass | weightLiftingDone | waterFastDone.
#[global] Instance eq_dec : EqDecision t.
Proof. solve_decision. Defined.
End YesNoKey.

(** ** Objects as property lists *)

Fixpoint obj_get {A} (o : list (string * A)) (k : string) : option A :=
  match o with
  | [] => None
  | (k', v) :: rest => if String.eqb k' k then Some v else obj_get rest k
  end.

(** [{...o, [k]: v}]: an existing property keeps its place. *)
Fixpoint obj_set {A} (o : list (string * A)) (k : string) (v : A)
  : list (string * A) :=
  match o with
  | [] => [(k, v)]
  | (k', v') :: rest =>
      if String.eqb k' k then (k, v) :: rest else (k', v') :: obj_set rest k v
  end.

Definition Object_keys {A} (o : list (string * A)) : list string := map fst o.

(** The [date] property, for use where a parameter is called [date]. *)
Definition date_of (day : DayRecord) : option ISODate := day.(date).

(** ** Tests on optional yes/no values *)

(** [v === c] *)
Definition strict_eq (v : option YesNo) (c : YesNo) : bool :=
  bool_decide (v = Some c).

(** [v !== c] *)
Definition strict_ne (v : option YesNo) (c : YesNo) : bool :=
  negb (strict_eq v c).

(** Truthiness of an optional boolean. *)
Definition truthy (b : option bool) : bool := default false b.

(* ===================================================================== *)
(** * The functions of [app.ts]                                           *)
(* ===================================================================== *)

Open Scope string_scope.

Definition emptyDiet : DietChecks :=
  {[ nonKetoFruits := null; highCarbDairy := null; processedFoods := null;
     starchyVeggies := null; refinedCarbs := null ]}.

Definition createEmptyDay (date : ISODate) : DayRecord := {|
  date := Some date;
  diet := emptyDiet;
  dietException := Some null;
  dessertPass := Some null;
  mealPass := Some null;
  weightMorning := None;
  weightNight := None;
  weightMorningMissed := Some false;
  weightNightMissed := Some false;
  weightLiftingDone := Some null;
  waterFastDone := Some null;
|}.

Definition pad (value : JS.int) : string :=
  JS.padStart 2 "0" (JS.String_ value).

Definition formatDate (date : JS.Date) : ISODate :=
  JS.String_ (JS.getFullYear date) ++ "-"
  ++ pad (JS.int_add (JS.getMonth date) (Some 1)) ++ "-"
  ++ pad (JS.getDate date).

(** [defaultState()]; [now] is the value of [new Date()]. *)
Definition defaultState (now : JS.Date) : AppState := {|
  days := [];
  weekPlans := ∅;
  fastPlans := ∅;
  trackingStart := formatDate now;
  confirmedWeeks := ∅;
  confirmedMonths := ∅;
|}.

(** A piece the destructuring does not find is [undefined], which
    [new Date] reads as NaN. *)
Definition parseDate (value : ISODate) : JS.Date :=
  match map JS.Number (JS.split "-" value) with
  | year :: month :: day :: _ =>
      JS.new_Date year (JS.int_add month (Some (-1))) day
  | _ => JS.Invalid
  end.

Definition addDays (date : JS.Date) (amount : JS.int) : JS.Date :=
  JS.new_Date (JS.getFullYear date) (JS.getMonth date)
              (JS.int_add (JS.getDate date) amount).

Definition getWeekStart (date : JS.Date) : JS.Date :=
  let day := JS.getDay date in
  let diff := JS.int_neg day in
  addDays date diff.

Definition getWeekKey (date : JS.Date) : string := formatDate (getWeekStart date).

Definition getMonthKey (date : JS.Date) : string :=
  JS.String_ (JS.getFullYear date) ++ "-"
  ++ pad (JS.int_add (JS.getMonth date) (Some 1)).

(** ** Loading

    [localStorage.getItem] and [JSON.parse] are the environment: what
    they hand to [loadState] is its input.  [JSON.parse] either throws or
    yields a value, which [loadState] reads at the type
    [Partial<AppState>]; a property that is missing or [null] is [None]. *)

Record PartialAppState : Type := {
  p_days : option (list (ISODate * DayRecord));
  p_weekPlans : option (gmap string WeekPlan);
  p_fastPlans : option (gmap string FastPlan);
  p_trackingStart : option ISODate;
  p_confirmedWeeks : option (gmap string bool);
  p_confirmedMonths : option (gmap string bool);
}.

Inductive JsonValue : Type :=
| JsonNull                         (* the text [null] *)
| JsonOther                        (* a number, string, boolean or array *)
| JsonObject (o : PartialAppState).

(** What is under [STORAGE_KEY]: nothing, or a text together with the
    outcome of [JSON.parse] on it, [None] when it throws. *)
Inductive Persisted : Type :=
| NoItem
| Item (raw : string) (parsed : option JsonValue).

Definition noProperties : PartialAppState := {|
  p_days := None; p_weekPlans := None; p_fastPlans := None;
  p_trackingStart := None; p_confirmedWeeks := None; p_confirmedMonths := None;
|}.

(** The object literal of the [try] block. *)
Definition fromParsed (now : JS.Date) (parsed : PartialAppState) : AppState := {|
  days := default [] (p_days parsed);
  weekPlans := default ∅ (p_weekPlans parsed);
  fastPlans := default ∅ (p_fastPlans parsed);
  trackingStart := default (formatDate now) (p_trackingStart parsed);
  confirmedWeeks := default ∅ (p_confirmedWeeks parsed);
  confirmedMonths := default ∅ (p_confirmedMonths parsed);
|}.

(** The [try] block; [None] is a thrown exception: the syntax error of
    [JSON.parse], or the type error of reading a property of [null].
    Reading a property of any other non-object yields [undefined]. *)
Definition loadState_try (now : JS.Date) (parsed : option JsonValue)
  : option AppState :=
  match parsed with
  | None => None
  | Some JsonNull => None
  | Some JsonOther => Some (fromParsed now noProperties)
  | Some (JsonObject o) => Some (fromParsed now o)
  end.

(** [loadState()]: [!raw] holds of a missing item and of the empty text;
    the [catch] clause turns every exception into the default state. *)
Definition loadState (now : JS.Date) (stored : Persisted) : AppState :=
  match stored with
  | NoItem => defaultState now
  | Item raw parsed =>
      if String.eqb raw "" then defaultState now
      else match loadState_try now parsed with
           | Some state => state
           | None => defaultState now
           end
  end.

Definition buildDateRange (endDate : JS.Date) (days : Z) : list ISODate :=
  map (fun index : nat =>
         formatDate (addDays endDate (Some (Z.of_nat index - (days - 1)))))
      (seq 0 (Z.to_nat days)).

(** ** The component's methods

    [this.appState] is the explicit argument [st]; a method that ends in
    [this.setState(next)] returns [next].  [setState] also writes [next]
    to storage, which nothing below reads back. *)

(** [{...createEmptyDay(date), ...stored, diet: {...emptyDiet(),
    ...stored.diet}}]: a property of [stored] wins over the default. *)
Definition getDay (st : AppState) (date : ISODate) : DayRecord :=
  match obj_get (days st) date with
  | None => createEmptyDay date
  | Some stored =>
      let empty := createEmptyDay date in
      {| date := date_of stored ∪ date_of empty;
         diet := stored.(diet) ∪ emptyDiet;
         dietException := stored.(dietException) ∪ empty.(dietException);
         dessertPass := stored.(dessertPass) ∪ empty.(dessertPass);
         mealPass := stored.(mealPass) ∪ empty.(mealPass);
         weightMorning := stored.(weightMorning) ∪ empty.(weightMorning);
         weightNight := stored.(weightNight) ∪ empty.(weightNight);
         weightMorningMissed :=
           stored.(weightMorningMissed) ∪ empty.(weightMorningMissed);
         weightNightMissed :=
           stored.(weightNightMissed) ∪ empty.(weightNightMissed);
         weightLiftingDone :=
           stored.(weightLiftingDone) ∪ empty.(weightLiftingDone);
         waterFastDone := stored.(waterFastDone) ∪ empty.(waterFastDone) |}
  end.

Definition updateDay (st : AppState) (date : ISODate)
    (updater : DayRecord -> DayRecord) : AppState :=
  let current := default (createEmptyDay date) (obj_get (days st) date) in
  let updated := updater current in
  {| days := obj_set (days st) date updated;
     weekPlans := weekPlans st;
     fastPlans := fastPlans st;
     trackingStart := trackingStart st;
     confirmedWeeks := confirmedWeeks st;
     confirmedMonths := confirmedMonths st |}.

Definition updateWeekPlan (st : AppState) (weekKey : string)
    (dates : list ISODate) : AppState :=
  {| days := days st;
     weekPlans := <[weekKey := {| week_dates := dates |}]> (weekPlans st);
     fastPlans := fastPlans st;
     trackingStart := trackingStart st;
     confirmedWeeks := <[weekKey := false]> (confirmedWeeks st);
     confirmedMonths := confirmedMonths st |}.

Definition updateFastPlan (st : AppState) (monthKey : string)
    (dates : list ISODate) : AppState :=
  {| days := days st;
     weekPlans := weekPlans st;
     fastPlans := <[monthKey := {| fast_dates := dates |}]> (fastPlans st);
     trackingStart := trackingStart st;
     confirmedWeeks := confirmedWeeks st;
     confirmedMonths := <[monthKey := false]> (confirmedMonths st) |}.

Definition confirmWeekPlan (st : AppState) (weekKey : string) : AppState :=
  {| days := days st;
     weekPlans := weekPlans st;
     fastPlans := fastPlans st;
     trackingStart := trackingStart st;
     confirmedWeeks := <[weekKey := true]> (confirmedWeeks st);
     confirmedMonths := confirmedMonths st |}.

Definition confirmMonthPlan (st : AppState) (monthKey : string) : AppState :=
  {| days := days st;
     weekPlans := weekPlans st;
     fastPlans := fastPlans st;
     trackingStart := trackingStart st;
     confirmedWeeks := confirmedWeeks st;
     confirmedMonths := <[monthKey := true]> (confirmedMonths st) |}.

(** Writing one property of a day, [{...day, [key]: value}]. *)
Definition with_diet (day : DayRecord) (d : DietChecks) : DayRecord :=
  {| date := day.(date); diet := d;
     dietException := day.(dietException); dessertPass := day.(dessertPass);
     mealPass := day.(mealPass); weightMorning := day.(weightMorning);
     weightNight := day.(weightNight);
     weightMorningMissed := day.(weightMorningMissed);
     weightNightMissed := day.(weightNightMissed);
     weightLiftingDone := day.(weightLiftingDone);
     waterFastDone := day.(waterFastDone) |}.

Definition with_yesNo (day : DayRecord) (key : YesNoKey.t) (value : YesNo)
  : DayRecord :=
  let pick k old := if bool_decide (key = k) then Some value else old in
  {| date := day.(date); diet := day.(diet);
     dietException := pick YesNoKey.dietException day.(dietException);
     dessertPass := pick YesNoKey.dessertPass day.(dessertPass);
     mealPass := pick YesNoKey.mealPass day.(mealPass);
     weightMorning := day.(weightMorning);
     weightNight := day.(weightNight);
     weightMorningMissed := day.(weightMorningMissed);
     weightNightMissed := day.(weightNightMissed);
     weightLiftingDone := pick YesNoKey.weightLiftingDone day.(weightLiftingDone);
     waterFastDone := pick YesNoKey.waterFastDone day.(waterFastDone) |}.

(** Writing a weight and its missed flag together. *)
Definition with_weight (day : DayRecord) (key : WeightKey.t)
    (value : option JS.number) (missed : option bool) : DayRecord :=
  match key with
  | WeightKey.weightMorning =>
      {| date := day.(date); diet := day.(diet);
         dietException := day.(dietException); dessertPass := day.(dessertPass);
         mealPass := day.(mealPass);
         weightMorning := value; weightNight := day.(weightNight);
         weightMorningMissed := missed;
         weightNightMissed := day.(weightNightMissed);
         weightLiftingDone := day.(weightLiftingDone);
         waterFastDone := day.(waterFastDone) |}
  | WeightKey.weightNight =>
      {| date := day.(date); diet := day.(diet);
         dietException := day.(dietException); dessertPass := day.(dessertPass);
         mealPass := day.(mealPass);
         weightMorning := day.(weightMorning); weightNight := value;
         weightMorningMissed := day.(weightMorningMissed);
         weightNightMissed := missed;
         weightLiftingDone := day.(weightLiftingDone);
         waterFastDone := day.(waterFastDone) |}
  end.

(** [day[key]] for the two kinds of key the code computes. *)
Definition weight_of (day : DayRecord) (key : WeightKey.t) : option JS.number :=
  match key with
  | WeightKey.weightMorning => day.(weightMorning)
  | WeightKey.weightNight => day.(weightNight)
  end.

Definition missed_of (day : DayRecord) (key : WeightKey.t) : option bool :=
  match key with
  | WeightKey.weightMorning => day.(weightMorningMissed)
  | WeightKey.weightNight => day.(weightNightMissed)
  end.

Definition pass_of (day : DayRecord) (key : PassKey.t) : option YesNo :=
  match key with
  | PassKey.dessertPass => day.(dessertPass)
  | PassKey.mealPass => day.(mealPass)
  end.

Definition setDietValue (st : AppState) (date : ISODate) (key : DietKey)
    (value : YesNo) : AppState :=
  updateDay st date (fun day => with_diet day (<[key := value]> day.(diet))).

(** [setDayValue] takes any property other than [diet] and [date] and a
    value of type [YesNo | number | undefined]; the pairs below are the
    ones at which the property's type and the value's agree.  Every call
    in [app.ts] passes a yes/no property. *)
Inductive DayValue : Type :=
| YesNoValue (key : YesNoKey.t) (value : YesNo)
| WeightValue (key : WeightKey.t) (value : option JS.number).

Definition setDayValue (st : AppState) (date : ISODate) (kv : DayValue)
  : AppState :=
  updateDay st date (fun day =>
    match kv with
    | YesNoValue key value => with_yesNo day key value
    | WeightValue key value => with_weight day key value (missed_of day key)
    end).

Definition setWeightValue (st : AppState) (date : ISODate) (key : WeightKey.t)
    (value : option JS.number) : AppState :=
  updateDay st date (fun day =>
    with_weight day key value
      (if value is Some _ then Some false else missed_of day key)).

Definition toggleWeightMissed (st : AppState) (date : ISODate)
    (key : WeightKey.t) : AppState :=
  updateDay st date (fun day =>
    let nextMissed := negb (truthy (missed_of day key)) in
    with_weight day key
      (if nextMissed then None else weight_of day key)
      (Some nextMissed)).

Definition dietRulesAnswered (day : DayRecord) : bool :=
  forallb (fun key => strict_ne (day.(diet) !! key) null) DIET_RULES.

Definition dietRulesAllClear (day : DayRecord) : bool :=
  forallb (fun key => strict_eq (day.(diet) !! key) no) DIET_RULES.

Definition dietRequirementSatisfied (day : DayRecord) : bool :=
  strict_eq day.(dietException) yes
  || strict_eq day.(dessertPass) yes
  || strict_eq day.(mealPass) yes
  || dietRulesAllClear day.

(** [dates.includes(date)] *)
Definition includes (dates : list ISODate) (date : ISODate) : bool :=
  existsb (String.eqb date) dates.

Definition isLiftingDay (st : AppState) (date : ISODate) : bool :=
  let weekKey := getWeekKey (parseDate date) in
  match weekPlans st !! weekKey with
  | Some plan => includes plan.(week_dates) date
  | None => false
  end.

Definition isFastDay (st : AppState) (date : ISODate) : bool :=
  let monthKey := getMonthKey (parseDate date) in
  match fastPlans st !! monthKey with
  | Some plan => includes plan.(fast_dates) date
  | None => false
  end.

Definition isDayComplete (st : AppState) (day : DayRecord) (date : ISODate)
  : bool :=
  let dietExceptionSet := strict_ne day.(dietException) null in
  let dietNeedsRules := strict_ne day.(dietException) yes in
  let dietRulesComplete := negb dietNeedsRules || dietRulesAnswered day in
  let passesAnswered :=
    negb dietNeedsRules
    || (strict_ne day.(dessertPass) null && strict_ne day.(mealPass) null) in
  let dietSectionComplete :=
    dietExceptionSet && dietRulesComplete && passesAnswered in
  let weightMorningSet :=
    JS.Number_isFinite day.(weightMorning) || truthy day.(weightMorningMissed) in
  let weightNightSet :=
    JS.Number_isFinite day.(weightNight) || truthy day.(weightNightMissed) in
  let weightsComplete := weightMorningSet && weightNightSet in
  let liftingRequired := isLiftingDay st date in
  let liftingComplete :=
    negb liftingRequired || strict_ne day.(weightLiftingDone) null in
  let fastRequired := isFastDay st date in
  let fastComplete := negb fastRequired || strict_ne day.(waterFastDone) null in
  dietSectionComplete && weightsComplete && liftingComplete && fastComplete.

(** [plan?.dates.length === 3] *)
Definition isWeekPlanComplete (st : AppState) (weekKey : string) : bool :=
  match weekPlans st !! weekKey with
  | Some plan => (length plan.(week_dates) =? 3)%nat
  | None => false
  end.

Definition isWeekPlanConfirmed (st : AppState) (weekKey : string) : bool :=
  truthy (confirmedWeeks st !! weekKey).

Definition isMonthPlanComplete (st : AppState) (monthKey : string) : bool :=
  match fastPlans st !! monthKey with
  | Some plan => (length plan.(fast_dates) =? 3)%nat
  | None => false
  end.

Definition isMonthPlanConfirmed (st : AppState) (monthKey : string) : bool :=
  truthy (confirmedMonths st !! monthKey).

(** [getBlockingOverlay()]; [today] is the value of [new Date()], and
    [None] is [null]. *)
Definition getBlockingOverlay (st : AppState) (today : JS.Date)
  : option BlockingOverlay :=
  let currentMonthKey := getMonthKey today in
  if negb (isMonthPlanComplete st currentMonthKey)
     || negb (isMonthPlanConfirmed st currentMonthKey)
  then Some (Overlay.month currentMonthKey)
  else
    let currentWeekKey := getWeekKey today in
    if negb (isWeekPlanComplete st currentWeekKey)
       || negb (isWeekPlanConfirmed st currentWeekKey)
    then Some (Overlay.week currentWeekKey)
    else
      let yesterday := formatDate (addDays today (Some (-1))) in
      if JS.Date_lt (parseDate yesterday) (parseDate (trackingStart st))
      then None
      else
        let day := getDay st yesterday in
        if isDayComplete st day yesterday then None
        else Some (Overlay.yesterday yesterday).

(** The [for ... of] loop of [getPassConflict] over the remaining keys. *)
Fixpoint getPassConflict_loop (st : AppState) (date : ISODate)
    (weekKey : string) (key : PassKey.t) (planDates : list string)
  : option ISODate :=
  match planDates with
  | [] => None
  | dayKey :: rest =>
      if String.eqb dayKey date
      then getPassConflict_loop st date weekKey key rest
      else if negb (String.eqb (getWeekKey (parseDate dayKey)) weekKey)
      then getPassConflict_loop st date weekKey key rest
      else if match obj_get (days st) dayKey with
              | Some day => strict_eq (pass_of day key) yes
              | None => false
              end
      then Some dayKey
      else getPassConflict_loop st date weekKey key rest
  end.

Definition getPassConflict (st : AppState) (date : ISODate) (key : PassKey.t)
  : option ISODate :=
  let weekKey := getWeekKey (parseDate date) in
  let planDates := Object_keys (days st) in
  getPassConflict_loop st date weekKey key planDates.




(** ** The operations the interface triggers

    The mutations the rendered controls call, with the arguments they
    pass: [setDayValue] is only ever given a yes/no property. *)
Inductive Action : Type :=
| SetDietValue (date : ISODate) (key : DietKey) (value : YesNo)
| SetDayValue (date : ISODate) (key : YesNoKey.t) (value : YesNo)
| SetWeightValue (date : ISODate) (key : WeightKey.t) (value : option JS.number)
| ToggleWeightMissed (date : ISODate) (key : WeightKey.t)
| UpdateWeekPlan (weekKey : string) (dates : list ISODate)
| UpdateFastPlan (monthKey : string) (dates : list ISODate)
| ConfirmWeekPlan (weekKey : string)
| ConfirmMonthPlan (monthKey : string).

Definition run (st : AppState) (a : Action) : AppState :=
  match a with
  | SetDietValue date key value => setDietValue st date key value
  | SetDayValue date key value => setDayValue st date (YesNoValue key value)
  | SetWeightValue date key value => setWeightValue st date key value
  | ToggleWeightMissed date key => toggleWeightMissed st date key
  | UpdateWeekPlan weekKey dates => updateWeekPlan st weekKey dates
  | UpdateFastPlan monthKey dates => updateFastPlan st monthKey dates
  | ConfirmWeekPlan weekKey => confirmWeekPlan st weekKey
  | ConfirmMonthPlan monthKey => confirmMonthPlan st monthKey
  end.

(* ===================================================================== *)
(** * Vocabulary of the specification                                     *)
(* ===================================================================== *)

(** ** The gate *)

(** A plan lets the gate pass when it is complete and confirmed. *)
Definition monthPlanReady (st : AppState) (monthKey : string) : bool :=
  isMonthPlanComplete st monthKey && isMonthPlanConfirmed st monthKey.

Definition weekPlanReady (st : AppState) (weekKey : string) : bool :=
  isWeekPlanComplete st weekKey && isWeekPlanConfirmed st weekKey.

(** Yesterday, as [getBlockingOverlay] names it. *)
Definition yesterdayOf (today : JS.Date) : ISODate :=
  formatDate (addDays today (Some (-1))).

(** Yesterday lies before the start of tracking. *)
Definition beforeTracking (st : AppState) (today : JS.Date) : bool :=
  JS.Date_lt (parseDate (yesterdayOf today)) (parseDate (trackingStart st)).

Definition yesterdayIncomplete (st : AppState) (today : JS.Date) : bool :=
  negb (isDayComplete st (getDay st (yesterdayOf today)) (yesterdayOf today)).

(** The first two steps of the priority: the month plan, then the week
    plan. *)
Definition gateOnPlans (st : AppState) (today : JS.Date) : Prop :=
  let monthKey := getMonthKey today in
  let weekKey := getWeekKey today in
  (monthPlanReady st monthKey = false ->
   getBlockingOverlay st today = Some (Overlay.month monthKey))
  /\ (monthPlanReady st monthKey = true ->
      weekPlanReady st weekKey = false ->
      getBlockingOverlay st today = Some (Overlay.week weekKey)).

(** The priority with a third step that looks at nothing but the
    completeness of yesterday. *)
Definition priorityAsStated (st : AppState) (today : JS.Date) : Prop :=
  gateOnPlans st today
  /\ (monthPlanReady st (getMonthKey today) = true ->
      weekPlanReady st (getWeekKey today) = true ->
      yesterdayIncomplete st today = true ->
      getBlockingOverlay st today = Some (Overlay.yesterday (yesterdayOf today))).

(** ** Loading *)

Definition lacksTrackingStart (stored : Persisted) : Prop :=
  exists raw o,
    stored = Item raw (Some (JsonObject o)) /\ p_trackingStart o = None.

(** The fallback with the default state for all three kinds of value:
    missing, unparseable, and an object without [trackingStart]. *)
Definition fallbackAsStated (now : JS.Date) (stored : Persisted) : Prop :=
  stored = NoItem
  \/ (exists raw, stored = Item raw None)
  \/ lacksTrackingStart stored ->
  loadState now stored = defaultState now.

(** ** Days *)

(** The weights requirement of a complete day. *)
Definition weightsLogged (day : DayRecord) : bool :=
  (JS.Number_isFinite day.(weightMorning) || truthy day.(weightMorningMissed))
  && (JS.Number_isFinite day.(weightNight) || truthy day.(weightNightMissed)).

(** A weight and a true missed flag are not both there, morning or
    night. *)
Definition weightExclusive (day : DayRecord) : bool :=
  negb (bool_decide (is_Some day.(weightMorning))
        && truthy day.(weightMorningMissed))
  && negb (bool_decide (is_Some day.(weightNight))
           && truthy day.(weightNightMissed)).

(** Every recorded day keeps its weights and their flags apart. *)
Definition daysExclusive (st : AppState) : Prop :=
  forall dayKey day, In (dayKey, day) (days st) -> weightExclusive day = true.

(** No property of the day is missing; the weights themselves may be
    [undefined]. *)
Definition allDefined (day : DayRecord) : Prop :=
  is_Some day.(date)
  /\ (forall key : DietKey, is_Some (day.(diet) !! key))
  /\ is_Some day.(dietException)
  /\ is_Some day.(dessertPass)
  /\ is_Some day.(mealPass)
  /\ is_Some day.(weightMorningMissed)
  /\ is_Some day.(weightNightMissed)
  /\ is_Some day.(weightLiftingDone)
  /\ is_Some day.(waterFastDone).

(** ** Passes *)

(** Two dates fall in the same calendar week, as the code tells it: by
    their week keys. *)
Definition sameWeek (a b : ISODate) : bool :=
  String.eqb (getWeekKey (parseDate a)) (getWeekKey (parseDate b)).

(** The record stored under [dayKey] answers [yes] to the pass. *)
Definition usesPass (st : AppState) (key : PassKey.t) (dayKey : ISODate) : bool :=
  match obj_get (days st) dayKey with
  | Some day => strict_eq (pass_of day key) yes
  | None => false
  end.

(** What the loop of [getPassConflict] looks for: another recorded date
    of the same week that uses the pass. *)
Definition conflictsWith (st : AppState) (date : ISODate) (key : PassKey.t)
    (dayKey : ISODate) : bool :=
  negb (String.eqb dayKey date) && sameWeek dayKey date && usesPass st key dayKey.

(** ** Calendar days *)

Definition yearOf (t : Z) : Z := fst (fst (JS.civil_from_days t)).

(** The year of a day number lies in 0..99, where [new Date] adds 1900. *)
Definition shortYear (t : Z) : bool :=
  ((0 <=? yearOf t) && (yearOf t <=? 99))%Z.

(** The year of a day number is 100 or later: [formatDate] writes it
    without a sign and [parseDate] reads it back as it is. *)
Definition modern (t : Z) : bool := (100 <=? yearOf t)%Z.

(** The Sunday on or before a day. *)
Definition sundayOf (t : Z) : Z := (t - (t + 4) mod 7)%Z.

(** The [n] consecutive calendar days that end with the day numbered
    [t], oldest first. *)
Definition window (t n : Z) : list ISODate :=
  map (fun i : nat => formatDate (JS.LocalDay (t - (n - 1) + Z.of_nat i)%Z))
      (seq 0 (Z.to_nat n)).

(** ** Averages *)





(** ** Decimal numerals *)

(** The value of a decimal numeral read after digits worth [acc]. *)
Fixpoint uint_value (acc : Z) (d : Decimal.uint) : Z :=
  match d with
  | Decimal.Nil => acc
  | Decimal.D0 d => uint_value (10 * acc + 0) d
  | Decimal.D1 d => uint_value (10 * acc + 1) d
  | Decimal.D2 d => uint_value (10 * acc + 2) d
  | Decimal.D3 d => uint_value (10 * acc + 3) d
  | Decimal.D4 d => uint_value (10 * acc + 4) d
  | Decimal.D5 d => uint_value (10 * acc + 5) d
  | Decimal.D6 d => uint_value (10 * acc + 6) d
  | Decimal.D7 d => uint_value (10 * acc + 7) d
  | Decimal.D8 d => uint_value (10 * acc + 8) d
  | Decimal.D9 d => uint_value (10 * acc + 9) d
  end%Z.

(** Every character of the string is a decimal digit. *)
Fixpoint all_digits (s : string) : bool :=
  match s with
  | EmptyString => true
  | String c rest => bool_decide (is_Some (JS.digit_of c)) && all_digits rest
  end.

(** ** An exhaustive check of the calendar on one era of 400 years *)

(** For the day [doe] of the era that starts on 0000-03-01: its fields
    give back its number, they are a month and a day of the month, and
    the year does not decrease on the next day. *)
Definition era_day_ok (doe : Z) : bool :=
  let z := (doe - 719468)%Z in
  let '(y, m, d) := JS.civil_from_days z in
  ((JS.days_from_civil y m d =? z)
   && (1 <=? m) && (m <=? 12) && (1 <=? d) && (d <=? 31)
   && (y <=? yearOf (z + 1)))%Z.

(** [f] holds on the 2^k integers from [lo]. *)
Fixpoint all_from (f : Z -> bool) (k : nat) (lo : Z) : bool :=
  match k with
  | O => f lo
  | S k' => all_from f k' lo && all_from f k' (lo + 2 ^ Z.of_nat k')%Z
  end.

(* ===================================================================== *)
(** * Sample data                                                         *)
(* ===================================================================== *)

(** June 2024 with both plans complete and confirmed: lifting on June
    10, 12 and 14 in the week of Sunday June 9, the fast on June 20 to
    22. *)
Definition juneState (start : ISODate) (recorded : list (ISODate * DayRecord))
  : AppState := {|
  days := recorded;
  weekPlans :=
    {[ "2024-06-09" :=
         {| week_dates := ["2024-06-10"; "2024-06-12"; "2024-06-14"] |} ]};
  fastPlans :=
    {[ "2024-06" :=
         {| fast_dates := ["2024-06-20"; "2024-06-21"; "2024-06-22"] |} ]};
  trackingStart := start;
  confirmedWeeks := {[ "2024-06-09" := true ]};
  confirmedMonths := {[ "2024-06" := true ]};
|}.

(** Monday 2024-06-10. *)
Definition june10 : JS.Date := JS.LocalDay 19884.

(** The text [{"confirmedWeeks":{"2024-06-09":true}}] and its value. *)
Definition quote : string := String (ascii_of_nat 34) "".

Definition weekOnlyText : string :=
  "{" ++ quote ++ "confirmedWeeks" ++ quote ++ ":{"
  ++ quote ++ "2024-06-09" ++ quote ++ ":true}}".

Definition weekOnly : PartialAppState := {|
  p_days := None; p_weekPlans := None; p_fastPlans := None;
  p_trackingStart := None;
  p_confirmedWeeks := Some {[ "2024-06-09" := true ]};
  p_confirmedMonths := None;
|}.

(** A weight given in tenths of a pound. *)
Definition lbs (tenths : Z) : JS.number := JS.Fin (Q2Qc (tenths # 10)).

(** An otherwise unanswered day with the given weights. *)
Definition weighed (date : ISODate) (morning night : option JS.number)
  : DayRecord :=
  with_weight
    (with_weight (createEmptyDay date) WeightKey.weightMorning morning (Some false))
    WeightKey.weightNight night (Some false).

(** A day on which the diet exception was taken and both weighings
    were marked as missed, nothing else answered. *)
Definition excepted (date : ISODate) : DayRecord :=
  with_weight
    (with_weight (with_yesNo (createEmptyDay date) YesNoKey.dietException yes)
                 WeightKey.weightMorning None (Some true))
    WeightKey.weightNight None (Some true).

(** A record read back from storage with only one diet answer and the
    dessert pass. *)
Definition partialDay : DayRecord := {|
  date := None;
  diet := {[ processedFoods := no ]};
  dietException := None;
  dessertPass := Some yes;
  mealPass := None;
  weightMorning := None;
  weightNight := None;
  weightMorningMissed := None;
  weightNightMissed := None;
  weightLiftingDone := None;
  waterFastDone := None;
|}.

(** Three recorded days: the dessert pass used on June 4 and on June 11,
    a week apart, and nothing answered on June 12. *)
Definition passDays : list (ISODate * DayRecord) :=
  [ ("2024-06-04", with_yesNo (createEmptyDay "2024-06-04") YesNoKey.dessertPass yes);
    ("2024-06-11", with_yesNo (createEmptyDay "2024-06-11") YesNoKey.dessertPass yes);
    ("2024-06-12", createEmptyDay "2024-06-12") ].

(* ===================================================================== *)
(** * More of [app.ts]                                                    *)
(* ===================================================================== *)

(** [getDaysInMonth]: day 0 of the next month is the last day of this
    one. *)
Definition getDaysInMonth (year monthIndex : JS.int) : JS.int :=
  JS.getDate (JS.new_Date year (JS.int_add monthIndex (Some 1%Z)) (Some 0%Z)).

(** [toggleYesNo]; [next] is ['yes'] or ['no']. *)
Definition toggleYesNo (value : option YesNo) (next : YesNo) : YesNo :=
  if strict_eq value next then null else next.

(** ** The controls

    The handlers the rendered controls install.  One that ends in
    [this.updateWeekPlan(...)] or [this.updateFastPlan(...)] returns the
    next state; one that returns early returns the state it was given. *)

(** A [Set] of strings is the list of its members in insertion order:
    [next.add(value)], [new Set(values)], [next.delete(value)]; its
    [size] is the length and [Array.from] the list itself. *)
Definition Set_add (members : list string) (value : string) : list string :=
  if includes members value then members else (members ++ [value])%list.

Definition new_Set (values : list string) : list string :=
  fold_left Set_add values [].

Definition Set_delete (members : list string) (value : string) : list string :=
  List.filter (fun member => negb (String.eqb member value)) members.

(** [a < b] and [a > b] on strings compare code units. *)
Definition String_lt (a b : string) : bool :=
  match String.compare a b with Lt => true | _ => false end.

Definition String_gt (a b : string) : bool :=
  match String.compare a b with Gt => true | _ => false end.

(** [values.sort()] with no comparator puts strings in the order of
    their code units; the sort is stable. *)
Fixpoint sort_insert (value : string) (sorted : list string) : list string :=
  match sorted with
  | [] => [value]
  | head :: rest =>
      if String_gt value head then head :: sort_insert value rest
      else value :: sorted
  end.

Definition Array_sort (values : list string) : list string :=
  fold_right sort_insert [] values.

(** The checkbox of [date] in the planner of week [weekKey];
    [checked] is [target.checked]. *)
Definition weekDayChange (st : AppState) (weekKey : string) (date : ISODate)
    (checked : bool) : AppState :=
  let plan := default {| week_dates := [] |} (weekPlans st !! weekKey) in
  let selected := new_Set plan.(week_dates) in
  let next := selected in
  if checked then
    if (3 <=? length next)%nat then st
    else updateWeekPlan st weekKey (Array_sort (Set_add next date))
  else updateWeekPlan st weekKey (Array_sort (Set_delete next date)).

(** [day[key]] for a yes/no property. *)
Definition yesNo_of (day : DayRecord) (key : YesNoKey.t) : option YesNo :=
  match key with
  | YesNoKey.dietException => day.(dietException)
  | YesNoKey.dessertPass => day.(dessertPass)
  | YesNoKey.mealPass => day.(mealPass)
  | YesNoKey.weightLiftingDone => day.(weightLiftingDone)
  | YesNoKey.waterFastDone => day.(waterFastDone)
  end.

(** A Yes or No button of [renderYesNo] on a yes/no property of the
    day shown: [onChange(this.toggleYesNo(value, next))], where [value]
    is the property as [getDay] reads it and [onChange] is
    [setDayValue]. *)
Definition pressYesNo (st : AppState) (date : ISODate) (key : YesNoKey.t)
    (next : YesNo) : AppState :=
  let day := getDay st date in
  let value := yesNo_of day key in
  setDayValue st date (YesNoValue key (toggleYesNo value next)).

(** [daysInMonth - 2] of [renderFastPlan], the day of the month its
    [maxDate] names. *)
Definition lastFastStart (monthKey : string) : JS.int :=
  let parts := map JS.Number (JS.split "-" monthKey) in
  let year := nth 0 parts None in
  let month := nth 1 parts None in
  let monthIndex := JS.int_add month (Some (-1)%Z) in
  let daysInMonth := getDaysInMonth year monthIndex in
  JS.int_add daysInMonth (Some (-2)%Z).

(** The start date input of the planner of month [monthKey]; [value]
    is [target.value]. *)
Definition fastStartChange (st : AppState) (monthKey : string) (value : string)
  : AppState :=
  if String.eqb value "" then updateFastPlan st monthKey []
  else
    let start := parseDate value in
    let dates :=
      map (fun offset => formatDate (addDays start (Some offset)))
          [0; 1; 2]%Z in
    updateFastPlan st monthKey dates.

(** The date navigator: the three handlers return the next
    [selectedDate]; [todayValue] is [formatDate(new Date())]. *)
Definition previousDate (selectedDate : ISODate) : ISODate :=
  formatDate (addDays (parseDate selectedDate) (Some (-1)%Z)).

Definition pickDate (selectedDate todayValue value : ISODate) : ISODate :=
  if String.eqb value "" then selectedDate
  else if String_gt value todayValue then todayValue
  else value.

Definition nextDate (selectedDate todayValue : ISODate) : ISODate :=
  let isToday := String.eqb selectedDate todayValue in
  if isToday then selectedDate
  else
    let nextDate := formatDate (addDays (parseDate selectedDate) (Some 1%Z)) in
    if String_gt nextDate todayValue then todayValue else nextDate.

(** [connectedCallback]: the state it saves, if it saves one.  Reading
    [trackingStart] of [null] throws, which the [catch] clause turns
    into a save; the empty text is falsy. *)
Definition connectedCallback (appState : AppState) (stored : Persisted)
  : option AppState :=
  match stored with
  | NoItem => Some appState
  | Item raw parsed =>
      if String.eqb raw "" then Some appState
      else match parsed with
           | None => Some appState
           | Some JsonNull => Some appState
           | Some JsonOther => Some appState
           | Some (JsonObject o) =>
               match p_trackingStart o with
               | None => Some appState
               | Some start =>
                   if String.eqb start "" then Some appState else None
               end
           end
  end.

(** The rows of [renderGoalCharts], per date: 1, 0 or [null]. *)
Definition dietValue (st : AppState) (date : ISODate) : option Z :=
  let day := getDay st date in
  let hasData :=
    strict_ne day.(dietException) null
    || strict_ne day.(dessertPass) null
    || strict_ne day.(mealPass) null
    || existsb (fun key => strict_ne (day.(diet) !! key) null) DIET_RULES in
  if negb hasData then None
  else Some (if dietRequirementSatisfied day then 1 else 0)%Z.

Definition weightValue (st : AppState) (date : ISODate) : option Z :=
  let day := getDay st date in
  let hasData :=
    JS.Number_isFinite day.(weightMorning)
    || JS.Number_isFinite day.(weightNight)
    || truthy day.(weightMorningMissed)
    || truthy day.(weightNightMissed) in
  if negb hasData then None
  else Some (if JS.Number_isFinite day.(weightMorning)
                && JS.Number_isFinite day.(weightNight)
             then 1 else 0)%Z.

Definition liftingValue (st : AppState) (date : ISODate) : option Z :=
  if negb (isLiftingDay st date) then None
  else
    let day := getDay st date in
    if strict_eq day.(weightLiftingDone) null then Some 0%Z
    else Some (if strict_eq day.(weightLiftingDone) yes then 1 else 0)%Z.

Definition fastValue (st : AppState) (date : ISODate) : option Z :=
  if negb (isFastDay st date) then None
  else
    let day := getDay st date in
    if strict_eq day.(waterFastDone) null then Some 0%Z
    else Some (if strict_eq day.(waterFastDone) yes then 1 else 0)%Z.

(** [a < b], [Math.max] and [Math.min] on finite numbers. *)
Definition Qc_lt_bool (a b : Qc) : bool := negb (Qle_bool b a).

Definition Qc_max (a b : Qc) : Qc := if Qc_lt_bool a b then b else a.

Definition Qc_min (a b : Qc) : Qc := if Qc_lt_bool b a then b else a.

(** The width of the bar of [renderWeightProgress], for the finite
    [startWeight] and [currentAvg] it is computed from. *)
Definition GOAL_WEIGHT_LBS : Qc := Q2Qc 170.

Definition progress (startWeight currentAvg : Qc) : Qc :=
  let totalLoss := (startWeight - GOAL_WEIGHT_LBS)%Qc in
  let currentLoss := (startWeight - currentAvg)%Qc in
  let progressRaw :=
    if Qc_lt_bool 0 totalLoss
    then (currentLoss / totalLoss * Q2Qc 100)%Qc
    else Q2Qc 100 in
  Qc_min (Qc_max progressRaw 0%Qc) (Q2Qc 100).

(** ** Further vocabulary *)

Definition monthOf (t : Z) : Z := snd (fst (JS.civil_from_days t)).

Definition dayOf (t : Z) : Z := snd (JS.civil_from_days t).

(** The record [getDay] builds from a stored one: the stored properties
    over the defaults. *)
Definition withDefaults (date : ISODate) (stored : DayRecord) : DayRecord :=
  let empty := createEmptyDay date in
  {| date := date_of stored ∪ date_of empty;
     diet := stored.(diet) ∪ emptyDiet;
     dietException := stored.(dietException) ∪ empty.(dietException);
     dessertPass := stored.(dessertPass) ∪ empty.(dessertPass);
     mealPass := stored.(mealPass) ∪ empty.(mealPass);
     weightMorning := stored.(weightMorning) ∪ empty.(weightMorning);
     weightNight := stored.(weightNight) ∪ empty.(weightNight);
     weightMorningMissed :=
       stored.(weightMorningMissed) ∪ empty.(weightMorningMissed);
     weightNightMissed :=
       stored.(weightNightMissed) ∪ empty.(weightNightMissed);
     weightLiftingDone :=
       stored.(weightLiftingDone) ∪ empty.(weightLiftingDone);
     waterFastDone := stored.(waterFastDone) ∪ empty.(waterFastDone) |}.

(** The record an update starts from:
    [this.appState.days[date] ?? createEmptyDay(date)]. *)
Definition currentDay (st : AppState) (date : ISODate) : DayRecord :=
  default (createEmptyDay date) (obj_get (days st) date).

(** The operations that write a day, as against those that write a
    plan or a confirmation. *)
Definition writesDay (a : Action) : bool :=
  match a with
  | SetDietValue _ _ _ | SetDayValue _ _ _
  | SetWeightValue _ _ _ | ToggleWeightMissed _ _ => true
  | _ => false
  end.

(** An answer that is there and is not [null]. *)
Definition answered (v : option YesNo) : bool :=
  strict_eq v yes || strict_eq v no.

(** The state as an object with all six properties. *)
Definition allProperties (st : AppState) : PartialAppState := {|
  p_days := Some (days st);
  p_weekPlans := Some (weekPlans st);
  p_fastPlans := Some (fastPlans st);
  p_trackingStart := Some (trackingStart st);
  p_confirmedWeeks := Some (confirmedWeeks st);
  p_confirmedMonths := Some (confirmedMonths st);
|}.

(** The Gregorian rule for leap years and the lengths of the months,
    [month] in 1..12. *)
Definition isLeapYear (y : Z) : bool :=
  (((y mod 4 =? 0) && negb (y mod 100 =? 0)) || (y mod 400 =? 0))%Z.

Definition monthLength (y month : Z) : Z :=
  (if month =? 2 then (if isLeapYear y then 29 else 28)
   else if (month =? 4) || (month =? 6) || (month =? 9) || (month =? 11)
        then 30 else 31)%Z.

(** Month number [n], counted from January of the year 0: the day
    before the first of the next month is the last of this one. *)
Definition month_days_ok (n : Z) : bool :=
  let y := (n / 12)%Z in
  let m := (n mod 12)%Z in
  (dayOf (JS.MakeDay y (m + 1) 0) =? monthLength y (m + 1))%Z.

(** The dates of the plan of a week, none when it has no plan:
    [(this.appState.weekPlans[weekKey] ?? { dates: [] }).dates]. *)
Definition planned (st : AppState) (weekKey : string) : list ISODate :=
  (default {| week_dates := [] |} (weekPlans st !! weekKey)).(week_dates).

(** Likewise for the plan of a month. *)
Definition fasting (st : AppState) (monthKey : string) : list ISODate :=
  (default {| fast_dates := [] |} (fastPlans st !! monthKey)).(fast_dates).

(** Texts in growing order of code units. *)
Definition before (a b : string) : Prop := String.compare a b = Lt.

Definition increasing (texts : list string) : Prop :=
  forall i j a b,
    texts !! i = Some a -> texts !! j = Some b -> (i < j)%nat ->
    String.compare a b = Lt.

(** The years whose texts have four digits. *)
Definition fourDigits (t : Z) : bool :=
  ((1000 <=? yearOf t) && (yearOf t <=? 9999))%Z.

(** Day [doe] of the 146097 of an era and the day after it: the next
    day of the month, or the first of the next month after a last day. *)
Definition next_day_ok (doe : Z) : bool :=
  if (146097 <=? doe)%Z then true
  else
    let '(y, m, d) := JS.civil_from_days doe in
    let '(y', m', d') := JS.civil_from_days (doe + 1) in
    (if d <? monthLength y m
     then (y' =? y) && (m' =? m) && (d' =? d + 1)
     else (d =? monthLength y m) && (d' =? 1)
          && (if m =? 12 then (y' =? y + 1) && (m' =? 1)
              else (y' =? y) && (m' =? m + 1)))%Z.

(** The texts of the year [1000 + n] and of the next, and those of the
    two-digit numbers [n] and [n + 1]. *)
Definition year_text_ok (n : Z) : bool :=
  let y := (1000 + n)%Z in
  if (y <? 9999)%Z
  then (String.length (JS.String_ (Some y)) =? 4)%nat
       && (String.length (JS.String_ (Some (y + 1)%Z)) =? 4)%nat
       && String_lt (JS.String_ (Some y)) (JS.String_ (Some (y + 1)%Z))
  else true.

Definition pad_text_ok (n : Z) : bool :=
  if (n <? 99)%Z
  then (String.length (pad (Some n)) =? 2)%nat
       && (String.length (pad (Some (n + 1)%Z)) =? 2)%nat
       && String_lt (pad (Some n)) (pad (Some (n + 1)%Z))
  else true.

(* ===================================================================== *)
(** * The calendar                                                        *)
(* ===================================================================== *)

Section Calendar.
Import JS.
Local Open Scope Z_scope.

Lemma all_from_spec f k :
  forall lo, all_from f k lo = true ->
  forall z, lo <= z < lo + 2 ^ Z.of_nat k -> f z = true.
Proof.
  induction k as [|k IH]; intros lo Hall z Hz.
  - simpl in *. replace z with lo by lia. exact Hall.
  - cbn [all_from] in Hall. apply andb_prop in Hall as [Hl Hr].
    rewrite Nat2Z.inj_succ, Z.pow_succ_r in Hz by lia.
    destruct (Z_lt_le_dec z (lo + 2 ^ Z.of_nat k)).
    + apply (IH lo); [exact Hl|lia].
    + apply (IH (lo + 2 ^ Z.of_nat k)); [exact Hr|lia].
Qed.

(** The 146097 days of an era, as 2^17 + 2^14 checks. *)
Lemma era_days_ok :
  all_from era_day_ok 17 0 && all_from era_day_ok 14 131072 = true.
Proof. vm_cast_no_check (eq_refl true). Qed.

Lemma era_day_ok_all doe : 0 <= doe < 146097 -> era_day_ok doe = true.
Proof.
  intros H. pose proof era_days_ok as Hall.
  apply andb_prop in Hall as [Hlo Hhi].
  destruct (Z_lt_le_dec doe 131072).
  - apply (all_from_spec _ _ _ Hlo). change (2 ^ Z.of_nat 17) with 131072. lia.
  - apply (all_from_spec _ _ _ Hhi). change (2 ^ Z.of_nat 14) with 16384. lia.
Qed.

(** Both conversions repeat every 400 years, that is every 146097 days. *)
Lemma civil_from_days_shift z k :
  civil_from_days (z + 146097 * k) =
  let '(y, m, d) := civil_from_days z in (y + 400 * k, m, d).
Proof.
  unfold civil_from_days.
  replace (z + 146097 * k + 719468) with (z + 719468 + k * 146097) by lia.
  rewrite Z.div_add by lia.
  replace (z + 719468 + k * 146097 - ((z + 719468) / 146097 + k) * 146097)
    with (z + 719468 - (z + 719468) / 146097 * 146097) by lia.
  set (doe := z + 719468 - (z + 719468) / 146097 * 146097).
  set (yoe := (doe - doe / 1460 + doe / 36524 - doe / 146096) / 365).
  cbv zeta.
  match goal with |- context [if ?c then _ else _] => destruct c end;
    f_equal; f_equal; lia.
Qed.

Lemma days_from_civil_shift y m d k :
  days_from_civil (y + 400 * k) m d = days_from_civil y m d + 146097 * k.
Proof.
  unfold days_from_civil.
  set (y0 := if m <=? 2 then y - 1 else y).
  replace (if m <=? 2 then y + 400 * k - 1 else y + 400 * k)
    with (y0 + k * 400) by (unfold y0; destruct (m <=? 2); lia).
  rewrite Z.div_add by lia.
  replace (y0 + k * 400 - (y0 / 400 + k) * 400) with (y0 - y0 / 400 * 400)
    by lia.
  cbv zeta. set (yoe := y0 - y0 / 400 * 400).
  generalize (yoe / 4) (yoe / 100)
             ((153 * (if 2 <? m then m - 3 else m + 9) + 2) / 5) (y0 / 400).
  intros. lia.
Qed.

(** [days_from_civil] undoes [civil_from_days], whose month is a month
    and whose day a day of the month; the year never decreases. *)
Lemma civil_from_days_spec z :
  let '(y, m, d) := civil_from_days z in
  days_from_civil y m d = z /\ 1 <= m <= 12 /\ 1 <= d <= 31
  /\ y <= yearOf (z + 1).
Proof.
  set (k := (z + 719468) / 146097).
  set (doe := (z + 719468) mod 146097).
  assert (Hz : z = (doe - 719468) + 146097 * k).
  { unfold doe, k. pose proof (Z.div_mod (z + 719468) 146097). lia. }
  assert (Hdoe : 0 <= doe < 146097) by (apply Z.mod_pos_bound; lia).
  pose proof (era_day_ok_all doe Hdoe) as Hok. unfold era_day_ok in Hok.
  rewrite Hz. unfold yearOf.
  replace (doe - 719468 + 146097 * k + 1)
    with (doe - 719468 + 1 + 146097 * k) by lia.
  rewrite !civil_from_days_shift.
  unfold yearOf in Hok.
  destruct (civil_from_days (doe - 719468)) as [[y m] d].
  destruct (civil_from_days (doe - 719468 + 1)) as [[y' m'] d'].
  rewrite days_from_civil_shift. simpl in *.
  repeat (apply andb_prop in Hok as [Hok ?]).
  lia.
Qed.

Lemma yearOf_mono t t' : t <= t' -> yearOf t <= yearOf t'.
Proof.
  intros H. replace t' with (t + Z.of_nat (Z.to_nat (t' - t))) by lia.
  induction (Z.to_nat (t' - t)) as [|n IH].
  - replace (t + Z.of_nat 0) with t by lia. lia.
  - pose proof (civil_from_days_spec (t + Z.of_nat n)) as Hs.
    unfold yearOf in IH at 2.
    destruct (civil_from_days (t + Z.of_nat n)) as [[y m] d]. simpl in IH.
    replace (t + Z.of_nat (S n)) with (t + Z.of_nat n + 1) by lia. lia.
Qed.

Lemma days_from_civil_day y m d :
  days_from_civil y m d = days_from_civil y m 1 + d - 1.
Proof. unfold days_from_civil. cbv zeta. lia. Qed.

(** [MakeDay] at the fields of a day, with the day of the month moved. *)
Lemma MakeDay_civil t k :
  let '(y, m, d) := civil_from_days t in MakeDay y (m - 1) (d + k) = t + k.
Proof.
  pose proof (civil_from_days_spec t) as H.
  destruct (civil_from_days t) as [[y m] d]. destruct H as (Ht & Hm & _).
  unfold MakeDay. cbv zeta.
  rewrite (Z.div_small (m - 1) 12), (Z.mod_small (m - 1) 12) by lia.
  rewrite (days_from_civil_day y m d) in Ht.
  replace (y + 0) with y by lia. replace (m - 1 + 1) with m by lia. lia.
Qed.

End Calendar.

(** Outside the years 0..99, [addDays] moves the day number. *)
Lemma addDays_LocalDay t k :
  shortYear t = false ->
  addDays (JS.LocalDay t) (Some k) = JS.LocalDay (t + k)%Z.
Proof.
  intros Hy. unfold addDays, JS.getFullYear, JS.getMonth, JS.getDate, JS.int_add.
  unfold shortYear, yearOf in Hy.
  pose proof (MakeDay_civil t k) as H.
  destruct (JS.civil_from_days t) as [[y m] d]. simpl in *.
  unfold JS.new_Date. rewrite Hy. f_equal. exact H.
Qed.

Lemma buildDateRange_window t n :
  shortYear t = false ->
  buildDateRange (JS.LocalDay t) n = window t n.
Proof.
  intros Hy. unfold buildDateRange, window.
  apply map_ext. intros i. rewrite addDays_LocalDay by exact Hy.
  f_equal. f_equal. lia.
Qed.

(* ===================================================================== *)
(** * Writing and reading dates                                           *)
(* ===================================================================== *)

Section Numerals.
Import JS.
Local Open Scope Z_scope.

Lemma digits_value_uint d acc :
  digits_value acc (NilEmpty.string_of_uint d) = Some (uint_value acc d).
Proof.
  revert acc. induction d; intros acc; simpl; try reflexivity; apply IHd.
Qed.

Lemma uint_value_acc d (p : positive) :
  uint_value (Z.pos p) d = Z.pos (Pos.of_uint_acc d p).
Proof.
  revert p. induction d; intros p; simpl; try reflexivity;
    match goal with
    | |- uint_value ?a _ = Z.pos (Pos.of_uint_acc _ ?q) =>
        replace a with (Z.pos q) by lia; apply IHd
    end.
Qed.

Lemma uint_value_of_uint d : uint_value 0 d = Z.of_uint d.
Proof.
  unfold Z.of_uint. induction d; simpl; try reflexivity; try exact IHd;
    match goal with
    | |- uint_value ?a _ = _ => change a with (Z.pos (Z.to_pos a))
    end; rewrite uint_value_acc; reflexivity.
Qed.

Lemma String_nonneg z :
  0 <= z ->
  exists d, String_ (Some z) = NilEmpty.string_of_uint d /\ Z.of_uint d = z.
Proof.
  intros Hz. unfold String_. destruct z as [|p|p]; [| |lia].
  - exists (D0 Nil). split; reflexivity.
  - exists (Pos.to_uint p). simpl.
    pose proof (DecimalPos.Unsigned.to_uint_nonnil p) as Hnil. split.
    + revert Hnil. destruct (Pos.to_uint p); intros Hnil;
        [contradiction Hnil|..]; reflexivity.
    + exact (DecimalZ.of_to (Z.pos p)).
Qed.

(** [Number(String(z))] is [z] for a natural number. *)
Lemma Number_String z : 0 <= z -> Number (String_ (Some z)) = Some z.
Proof.
  intros Hz. destruct (String_nonneg z Hz) as (d & -> & <-).
  unfold Number. rewrite digits_value_uint, uint_value_of_uint. reflexivity.
Qed.

Lemma all_digits_uint d : all_digits (NilEmpty.string_of_uint d) = true.
Proof. induction d; simpl; try reflexivity; exact IHd. Qed.

Lemma all_digits_String z : 0 <= z -> all_digits (String_ (Some z)) = true.
Proof.
  intros Hz. destruct (String_nonneg z Hz) as (d & -> & _).
  apply all_digits_uint.
Qed.

Lemma all_digits_zeros n s :
  all_digits s = true -> all_digits (repeat_char n "0" ++ s)%string = true.
Proof. intros Hs. induction n; simpl; [exact Hs|exact IHn]. Qed.

Lemma digits_value_zeros n s :
  digits_value 0 (repeat_char n "0" ++ s)%string = digits_value 0 s.
Proof. induction n; simpl; [reflexivity|exact IHn]. Qed.

(** A run of digits before a dash is the first piece of a split. *)
Lemma split_digits a b :
  all_digits a = true ->
  split "-" (a ++ "-" ++ b)%string = a :: split "-" b.
Proof.
  change ("-" ++ b)%string with (String "-" b).
  induction a as [|c a IH]; simpl; intros Ha.
  - reflexivity.
  - apply andb_prop in Ha as [Hc Ha].
    assert (Hdash : Ascii.eqb c "-" = false).
    { destruct (Ascii.eqb_spec c "-") as [->|]; [discriminate Hc|reflexivity]. }
    rewrite Hdash, (IH Ha). reflexivity.
Qed.

Lemma split_digits_end a : all_digits a = true -> split "-" a = [a].
Proof.
  induction a as [|c a IH]; simpl; intros Ha.
  - reflexivity.
  - apply andb_prop in Ha as [Hc Ha].
    assert (Hdash : Ascii.eqb c "-" = false).
    { destruct (Ascii.eqb_spec c "-") as [->|]; [discriminate Hc|reflexivity]. }
    rewrite Hdash, (IH Ha). reflexivity.
Qed.

End Numerals.

Lemma Number_pad z : (0 <= z)%Z -> JS.Number (pad (Some z)) = Some z.
Proof.
  intros Hz. unfold pad, JS.padStart, JS.Number.
  rewrite digits_value_zeros. apply Number_String, Hz.
Qed.

Lemma all_digits_pad z : (0 <= z)%Z -> all_digits (pad (Some z)) = true.
Proof.
  intros Hz. unfold pad, JS.padStart.
  apply all_digits_zeros, all_digits_String, Hz.
Qed.

(** [parseDate] reads back what [formatDate] writes, from the year 100
    on. *)
Lemma parseDate_formatDate t :
  modern t = true -> parseDate (formatDate (JS.LocalDay t)) = JS.LocalDay t.
Proof.
  unfold modern, yearOf. intros Hy. apply Z.leb_le in Hy.
  pose proof (civil_from_days_spec t) as Hs.
  pose proof (MakeDay_civil t 0) as Hmk.
  unfold formatDate, parseDate, JS.getFullYear, JS.getMonth, JS.getDate.
  destruct (JS.civil_from_days t) as [[y m] d]. simpl in Hy.
  cbn beta iota in Hmk.
  destruct Hs as (_ & Hm & Hd & _). cbn [fst snd JS.int_add].
  rewrite split_digits by (apply all_digits_String; lia).
  rewrite split_digits by (apply all_digits_pad; lia).
  rewrite split_digits_end by (apply all_digits_pad; lia).
  cbn [map]. rewrite Number_String, !Number_pad by lia.
  cbn [JS.int_add JS.new_Date].
  replace ((0 <=? y)%Z && (y <=? 99)%Z) with false by lia.
  f_equal. replace t with (t + 0)%Z by lia. rewrite <- Hmk. f_equal; lia.
Qed.

Lemma modern_not_short t : modern t = true -> shortYear t = false.
Proof. unfold modern, shortYear. lia. Qed.

Lemma modern_mono t t' : (t <= t')%Z -> modern t = true -> modern t' = true.
Proof.
  unfold modern. intros Ht H. pose proof (yearOf_mono t t' Ht). lia.
Qed.

Lemma formatDate_inj a b :
  modern a = true -> modern b = true ->
  formatDate (JS.LocalDay a) = formatDate (JS.LocalDay b) -> a = b.
Proof.
  intros Ha Hb H. apply (f_equal parseDate) in H.
  rewrite !parseDate_formatDate in H by assumption. congruence.
Qed.

(** The week of a day starts on the Sunday on or before it. *)
Lemma getWeekStart_LocalDay t :
  shortYear t = false -> getWeekStart (JS.LocalDay t) = JS.LocalDay (sundayOf t).
Proof.
  intros H. unfold getWeekStart. simpl. rewrite addDays_LocalDay by exact H.
  reflexivity.
Qed.

Lemma sundayOf_bounds t : (t - 6 <= sundayOf t <= t)%Z.
Proof. unfold sundayOf. pose proof (Z.mod_pos_bound (t + 4) 7). lia. Qed.

(** Two dates written by [formatDate] are in the same week exactly when
    the same Sunday comes on or before them. *)
Lemma sameWeek_formatDate a b :
  modern (a - 6) = true -> modern (b - 6) = true ->
  sameWeek (formatDate (JS.LocalDay a)) (formatDate (JS.LocalDay b))
  = bool_decide (sundayOf a = sundayOf b).
Proof.
  intros Ha Hb.
  pose proof (sundayOf_bounds a) as Ba. pose proof (sundayOf_bounds b) as Bb.
  assert (Ma : modern a = true) by (apply (modern_mono (a - 6)); [lia|exact Ha]).
  assert (Mb : modern b = true) by (apply (modern_mono (b - 6)); [lia|exact Hb]).
  assert (Sa : modern (sundayOf a) = true)
    by (apply (modern_mono (a - 6)); [lia|exact Ha]).
  assert (Sb : modern (sundayOf b) = true)
    by (apply (modern_mono (b - 6)); [lia|exact Hb]).
  unfold sameWeek, getWeekKey.
  rewrite !parseDate_formatDate by assumption.
  rewrite !getWeekStart_LocalDay by (apply modern_not_short; assumption).
  destruct (String.eqb_spec (formatDate (JS.LocalDay (sundayOf a)))
                            (formatDate (JS.LocalDay (sundayOf b)))) as [E|E].
  - apply formatDate_inj in E; [|assumption..].
    symmetry. apply bool_decide_eq_true. exact E.
  - symmetry. apply bool_decide_eq_false. intros E'. apply E. rewrite E'.
    reflexivity.
Qed.

Lemma yesterdayOf_LocalDay t :
  shortYear t = false ->
  yesterdayOf (JS.LocalDay t) = formatDate (JS.LocalDay (t - 1)).
Proof.
  intros H. unfold yesterdayOf. rewrite addDays_LocalDay by exact H.
  reflexivity.
Qed.

(** Tracking began on day [start] and today is day [t]: yesterday is
    before tracking exactly when [t - 1 < start]. *)
Lemma beforeTracking_days st t start :
  modern (t - 1) = true -> modern start = true ->
  trackingStart st = formatDate (JS.LocalDay start) ->
  beforeTracking st (JS.LocalDay t) = (t - 1 <? start)%Z.
Proof.
  intros Ht Hs Hstart.
  assert (Mt : modern t = true) by (apply (modern_mono (t - 1)); [lia|exact Ht]).
  unfold beforeTracking.
  rewrite yesterdayOf_LocalDay by (apply modern_not_short, Mt).
  rewrite Hstart, !parseDate_formatDate by assumption. reflexivity.
Qed.

(** ** The date functions on a few dates *)

Example formatDate_epoch : formatDate (JS.LocalDay 0) = "1970-01-01".
Proof. vm_compute. reflexivity. Qed.

(** 2024-06-09 was a Sunday, 19883 days after the epoch. *)
Example parseDate_sunday :
  parseDate "2024-06-09" = JS.LocalDay 19883
  /\ JS.getDay (parseDate "2024-06-09") = Some 0%Z.
Proof. vm_compute. split; reflexivity. Qed.

Example getWeekKey_wednesday : getWeekKey (parseDate "2024-06-12") = "2024-06-09".
Proof. vm_compute. reflexivity. Qed.

Example getMonthKey_june : getMonthKey (parseDate "2024-06-12") = "2024-06".
Proof. vm_compute. reflexivity. Qed.

(** A day past the end of its month carries over. *)
Example parseDate_carries : formatDate (parseDate "2024-02-30") = "2024-03-01".
Proof. vm_compute. reflexivity. Qed.

(** A year below 100 lands in the twentieth century. *)
Example parseDate_short_year : formatDate (parseDate "0050-01-01") = "1950-01-01".
Proof. vm_compute. reflexivity. Qed.

Example parseDate_no_date : formatDate (parseDate "soon") = "NaN-NaN-NaN".
Proof. vm_compute. reflexivity. Qed.

Example buildDateRange_leap_day :
  buildDateRange (parseDate "2024-03-02") 4
  = ["2024-02-28"; "2024-02-29"; "2024-03-01"; "2024-03-02"].
Proof. vm_compute. reflexivity. Qed.

(** ** Objects as property lists *)

Lemma obj_get_set_eq {A} (o : list (string * A)) k v :
  obj_get (obj_set o k v) k = Some v.
Proof.
  induction o as [|[k' v'] o IH]; simpl.
  - rewrite String.eqb_refl. reflexivity.
  - destruct (String.eqb k' k) eqn:E; simpl.
    + rewrite String.eqb_refl. reflexivity.
    + rewrite E. exact IH.
Qed.

Lemma obj_get_set_ne {A} (o : list (string * A)) k k' v :
  k <> k' -> obj_get (obj_set o k v) k' = obj_get o k'.
Proof.
  intros Hne. induction o as [|[k0 v0] o IH]; simpl.
  - apply String.eqb_neq in Hne. rewrite Hne. reflexivity.
  - destruct (String.eqb k0 k) eqn:E; simpl.
    + apply String.eqb_eq in E. subst k0.
      apply String.eqb_neq in Hne. rewrite Hne. reflexivity.
    + destruct (String.eqb k0 k'); [reflexivity|exact IH].
Qed.

Lemma obj_get_In {A} (o : list (string * A)) k v :
  obj_get o k = Some v -> In (k, v) o.
Proof.
  induction o as [|[k' v'] o IH]; simpl; [discriminate|].
  destruct (String.eqb k' k) eqn:E.
  - apply String.eqb_eq in E. intros [= <-]. left. congruence.
  - intros H. right. apply IH, H.
Qed.

Lemma obj_set_In {A} (o : list (string * A)) k v k' v' :
  In (k', v') (obj_set o k v) -> (k', v') = (k, v) \/ In (k', v') o.
Proof.
  induction o as [|[k0 v0] o IH]; simpl.
  - intros [H|[]]. left. congruence.
  - destruct (String.eqb k0 k); simpl.
    + intros [H|H]; [left; congruence|right; right; exact H].
    + intros [H|H]; [right; left; exact H|].
      destruct (IH H) as [H'|H']; [left; exact H'|right; right; exact H'].
Qed.

(* ===================================================================== *)
(** * The gate sequencer                                                  *)
(* ===================================================================== *)

Lemma getBlockingOverlay_month st today :
  monthPlanReady st (getMonthKey today) = false ->
  getBlockingOverlay st today = Some (Overlay.month (getMonthKey today)).
Proof.
  unfold monthPlanReady, getBlockingOverlay. intros H.
  apply andb_false_iff in H.
  destruct (isMonthPlanComplete st _), (isMonthPlanConfirmed st _);
    simpl; destruct H; congruence.
Qed.

Lemma getBlockingOverlay_week st today :
  monthPlanReady st (getMonthKey today) = true ->
  weekPlanReady st (getWeekKey today) = false ->
  getBlockingOverlay st today = Some (Overlay.week (getWeekKey today)).
Proof.
  unfold monthPlanReady, weekPlanReady, getBlockingOverlay. intros Hm Hw.
  apply andb_true_iff in Hm as [-> ->]. simpl.
  apply andb_false_iff in Hw.
  destruct (isWeekPlanComplete st _), (isWeekPlanConfirmed st _);
    simpl; destruct Hw; congruence.
Qed.

(** With both plans ready the gate is decided by yesterday alone. *)
Lemma getBlockingOverlay_plans_ready st today :
  monthPlanReady st (getMonthKey today) = true ->
  weekPlanReady st (getWeekKey today) = true ->
  getBlockingOverlay st today =
  if beforeTracking st today then None
  else if yesterdayIncomplete st today
       then Some (Overlay.yesterday (yesterdayOf today))
       else None.
Proof.
  unfold monthPlanReady, weekPlanReady, getBlockingOverlay, beforeTracking,
    yesterdayIncomplete, yesterdayOf.
  intros Hm Hw.
  apply andb_true_iff in Hm as [-> ->]. apply andb_true_iff in Hw as [-> ->].
  simpl. destruct (JS.Date_lt _ _); [reflexivity|].
  destruct (isDayComplete st _ _); reflexivity.
Qed.

(** C1, as stated, fails: with both plans ready and tracking started
    today, an incomplete yesterday raises no gate. *)
Lemma priorityAsStated_fails :
  ~ priorityAsStated (juneState "2024-06-10" []) june10.
Proof.
  intros [_ H].
  specialize (H eq_refl eq_refl eq_refl). vm_compute in H. discriminate H.
Qed.

(** C1 (amended): [getBlockingOverlay] follows strict priority.  While
    the current month's plan is not both complete and confirmed the
    result is the month gate; otherwise, while the current week's plan
    is not both complete and confirmed, it is the week gate; otherwise an
    incomplete yesterday that is not before [trackingStart] gives the
    yesterday gate.  A lower gate is the result only when every higher
    check passes. *)
Theorem getBlockingOverlay_priority st today :
  gateOnPlans st today
  /\ (monthPlanReady st (getMonthKey today) = true ->
      weekPlanReady st (getWeekKey today) = true ->
      beforeTracking st today = false ->
      yesterdayIncomplete st today = true ->
      getBlockingOverlay st today = Some (Overlay.yesterday (yesterdayOf today)))
  /\ (forall weekKey,
        getBlockingOverlay st today = Some (Overlay.week weekKey) ->
        monthPlanReady st (getMonthKey today) = true)
  /\ (forall date,
        getBlockingOverlay st today = Some (Overlay.yesterday date) ->
        monthPlanReady st (getMonthKey today) = true
        /\ weekPlanReady st (getWeekKey today) = true).
Proof.
  split; [split|split; [|split]].
  - apply getBlockingOverlay_month.
  - apply getBlockingOverlay_week.
  - intros Hm Hw Hb Hy.
    rewrite getBlockingOverlay_plans_ready, Hb, Hy by assumption. reflexivity.
  - intros weekKey H.
    destruct (monthPlanReady st (getMonthKey today)) eqn:Hm; [reflexivity|].
    rewrite getBlockingOverlay_month in H by exact Hm. discriminate H.
  - intros date H.
    destruct (monthPlanReady st (getMonthKey today)) eqn:Hm.
    + split; [reflexivity|].
      destruct (weekPlanReady st (getWeekKey today)) eqn:Hw; [reflexivity|].
      rewrite getBlockingOverlay_week in H by assumption. discriminate H.
    + rewrite getBlockingOverlay_month in H by exact Hm. discriminate H.
Qed.

(** The three gates in turn on June 10: no month plan; the month plan
    ready but no week plan; both ready, tracking since June 1 and nothing
    recorded for June 9. *)
Lemma getBlockingOverlay_priority_witness :
  getBlockingOverlay (defaultState june10) june10 = Some (Overlay.month "2024-06")
  /\ getBlockingOverlay
       (updateWeekPlan (juneState "2024-06-01" []) "2024-06-09" []) june10
     = Some (Overlay.week "2024-06-09")
  /\ getBlockingOverlay (juneState "2024-06-01" []) june10
     = Some (Overlay.yesterday "2024-06-09").
Proof.
  split; [|split].
  - exact (proj1 (proj1 (getBlockingOverlay_priority (defaultState june10) june10))
                 eq_refl).
  - exact (proj2 (proj1 (getBlockingOverlay_priority
                           (updateWeekPlan (juneState "2024-06-01" [])
                                           "2024-06-09" []) june10))
                 eq_refl eq_refl).
  - exact (proj1 (proj2 (getBlockingOverlay_priority
                           (juneState "2024-06-01" []) june10))
                 eq_refl eq_refl eq_refl eq_refl).
Defined.

(** C2: with the current month's and week's plans complete and
    confirmed, a yesterday that lies before [trackingStart] raises no
    gate, whatever is recorded for it.  "Before" is the comparison the
    code makes; for dates written by [formatDate] it is the order of the
    calendar days. *)
Theorem getBlockingOverlay_before_tracking st today :
  monthPlanReady st (getMonthKey today) = true ->
  weekPlanReady st (getWeekKey today) = true ->
  (beforeTracking st today = true -> getBlockingOverlay st today = None)
  /\ (forall t start,
        today = JS.LocalDay t ->
        trackingStart st = formatDate (JS.LocalDay start) ->
        modern (t - 1) = true -> modern start = true ->
        (t - 1 < start)%Z ->
        getBlockingOverlay st today = None).
Proof.
  intros Hm Hw.
  assert (Hgate : beforeTracking st today = true ->
                  getBlockingOverlay st today = None).
  { intros Hb. rewrite getBlockingOverlay_plans_ready, Hb by assumption.
    reflexivity. }
  split; [exact Hgate|].
  intros t start -> Hstart Ht Hs Hlt. apply Hgate.
  rewrite (beforeTracking_days st t start) by assumption.
  apply Z.ltb_lt, Hlt.
Qed.

(** Tracking starts on 2024-06-10 and today is 2024-06-10. *)
Lemma getBlockingOverlay_before_tracking_witness :
  yesterdayIncomplete (juneState "2024-06-10" []) june10 = true
  /\ getBlockingOverlay (juneState "2024-06-10" []) june10 = None.
Proof.
  split; [reflexivity|].
  apply (proj2 (getBlockingOverlay_before_tracking
                  (juneState "2024-06-10" []) june10 eq_refl eq_refl)
               19884%Z 19884%Z);
    first [reflexivity | lia].
Defined.

(* ===================================================================== *)
(** * Loading                                                             *)
(* ===================================================================== *)

Lemma fromParsed_noProperties now : fromParsed now noProperties = defaultState now.
Proof. reflexivity. Qed.

(** C3, as stated, fails: an object that lacks [trackingStart] keeps the
    properties it has. *)
Lemma fallbackAsStated_fails :
  ~ fallbackAsStated june10 (Item weekOnlyText (Some (JsonObject weekOnly))).
Proof.
  intros H.
  assert (Hload : loadState june10 (Item weekOnlyText (Some (JsonObject weekOnly)))
                  = defaultState june10).
  { apply H. right. right. exists weekOnlyText, weekOnly. split; reflexivity. }
  apply (f_equal (fun st => isWeekPlanConfirmed st "2024-06-09")) in Hload.
  vm_compute in Hload. discriminate Hload.
Qed.

(** C3 (amended): a value that is missing, empty or unparseable as JSON
    loads as the default state (tracking from the current date, all five
    maps empty); a value that parses to an object lacking
    [trackingStart] loads with [trackingStart] the current date and with
    each of the five maps the object's own when it has one and empty
    otherwise, so as the default state when it has none.  [loadState]
    returns a state in every case. *)
Theorem loadState_fallback now stored :
  (stored = NoItem
   \/ (exists parsed, stored = Item "" parsed)
   \/ (exists raw, stored = Item raw None) ->
   loadState now stored = defaultState now)
  /\ (forall raw o,
        stored = Item raw (Some (JsonObject o)) ->
        raw <> "" ->
        p_trackingStart o = None ->
        let st := loadState now stored in
        trackingStart st = formatDate now
        /\ days st = default [] (p_days o)
        /\ weekPlans st = default ∅ (p_weekPlans o)
        /\ fastPlans st = default ∅ (p_fastPlans o)
        /\ confirmedWeeks st = default ∅ (p_confirmedWeeks o)
        /\ confirmedMonths st = default ∅ (p_confirmedMonths o))
  /\ (forall raw,
        stored = Item raw (Some (JsonObject noProperties)) ->
        loadState now stored = defaultState now).
Proof.
  split; [|split].
  - intros [->|[[parsed ->]|[raw ->]]]; simpl; try reflexivity.
    destruct (String.eqb raw ""); reflexivity.
  - intros raw o -> Hraw Ht. simpl.
    apply String.eqb_neq in Hraw. rewrite Hraw. simpl. rewrite Ht.
    repeat split.
  - intros raw ->. simpl. destruct (String.eqb raw ""); reflexivity.
Qed.

Lemma loadState_fallback_witness :
  loadState june10 NoItem = defaultState june10
  /\ confirmedWeeks (loadState june10 (Item weekOnlyText (Some (JsonObject weekOnly))))
     = {[ "2024-06-09" := true ]}
  /\ trackingStart (loadState june10 (Item weekOnlyText (Some (JsonObject weekOnly))))
     = "2024-06-10".
Proof.
  split; [|split].
  - apply (proj1 (loadState_fallback june10 NoItem)). left. reflexivity.
  - refine (proj1 (proj2 (proj2 (proj2 (proj2
      (proj1 (proj2 (loadState_fallback june10 _)) weekOnlyText weekOnly
             eq_refl _ eq_refl)))))).
    discriminate.
  - refine (proj1
      (proj1 (proj2 (loadState_fallback june10 _)) weekOnlyText weekOnly
             eq_refl _ eq_refl)).
    discriminate.
Defined.

(* ===================================================================== *)
(** * The day model                                                       *)
(* ===================================================================== *)




Example mean_of_1502_and_1498 :
  ((Q2Qc (1502 # 10) + Q2Qc (1498 # 10)) / Q2Qc 2 = Q2Qc 150)%Qc.
Proof. apply Qc_is_canon. reflexivity. Qed.

(** C6: on a day with [dietException = yes], completeness asks for no
    diet-rule answer and no pass answer: it is the weights requirement,
    the lifting answer on a planned lifting day and the fast answer
    inside the planned fast, and so is unchanged by any rewriting of the
    diet answers and the two passes. *)
Theorem isDayComplete_exception st day date :
  dietException day = Some yes ->
  isDayComplete st day date =
    weightsLogged day
    && (negb (isLiftingDay st date) || strict_ne (weightLiftingDone day) null)
    && (negb (isFastDay st date) || strict_ne (waterFastDone day) null)
  /\ (forall answers dessert meal,
        let day' :=
          {| date := date_of day; diet := answers;
             dietException := Some yes;
             dessertPass := dessert; mealPass := meal;
             weightMorning := weightMorning day;
             weightNight := weightNight day;
             weightMorningMissed := weightMorningMissed day;
             weightNightMissed := weightNightMissed day;
             weightLiftingDone := weightLiftingDone day;
             waterFastDone := waterFastDone day |} in
        isDayComplete st day' date = isDayComplete st day date).
Proof.
  intros He.
  assert (Hgen : forall d, dietException d = Some yes ->
    isDayComplete st d date =
      weightsLogged d
      && (negb (isLiftingDay st date) || strict_ne (weightLiftingDone d) null)
      && (negb (isFastDay st date) || strict_ne (waterFastDone d) null)).
  { intros d Hd. unfold isDayComplete, weightsLogged. rewrite Hd.
    cbn. rewrite andb_assoc. reflexivity. }
  split; [apply Hgen, He|].
  intros answers dessert meal day'.
  rewrite (Hgen day' eq_refl), (Hgen day He). reflexivity.
Qed.

(** June 10 is a planned lifting day: a day with the exception taken and
    both weights marked missed is incomplete for it, and complete for
    June 11, with every diet rule and both passes unanswered. *)
Lemma isDayComplete_exception_witness :
  dietRulesAnswered (excepted "2024-06-11") = false
  /\ isDayComplete (juneState "2024-06-01" []) (excepted "2024-06-11") "2024-06-11"
     = true
  /\ isDayComplete (juneState "2024-06-01" []) (excepted "2024-06-10") "2024-06-10"
     = false.
Proof.
  split; [reflexivity|split].
  - rewrite (proj1 (isDayComplete_exception (juneState "2024-06-01" [])
                      (excepted "2024-06-11") "2024-06-11" eq_refl)).
    reflexivity.
  - rewrite (proj1 (isDayComplete_exception (juneState "2024-06-01" [])
                      (excepted "2024-06-10") "2024-06-10" eq_refl)).
    reflexivity.
Defined.

(* ===================================================================== *)
(** * Reading a day                                                       *)
(* ===================================================================== *)

Lemma emptyDiet_lookup key : emptyDiet !! key = Some null.
Proof. destruct key; reflexivity. Qed.




(* ===================================================================== *)
(** * Plans and their confirmation                                        *)
(* ===================================================================== *)

(** How one operation moves the confirmation of a week. *)
Lemma run_week_confirmation st a weekKey :
  isWeekPlanConfirmed (run st a) weekKey =
  match a with
  | UpdateWeekPlan k _ =>
      if decide (k = weekKey) then false else isWeekPlanConfirmed st weekKey
  | ConfirmWeekPlan k =>
      if decide (k = weekKey) then true else isWeekPlanConfirmed st weekKey
  | _ => isWeekPlanConfirmed st weekKey
  end.
Proof.
  unfold isWeekPlanConfirmed.
  destruct a; try reflexivity; simpl; rewrite lookup_insert;
    case_decide; reflexivity.
Qed.

Lemma run_month_confirmation st a monthKey :
  isMonthPlanConfirmed (run st a) monthKey =
  match a with
  | UpdateFastPlan k _ =>
      if decide (k = monthKey) then false else isMonthPlanConfirmed st monthKey
  | ConfirmMonthPlan k =>
      if decide (k = monthKey) then true else isMonthPlanConfirmed st monthKey
  | _ => isMonthPlanConfirmed st monthKey
  end.
Proof.
  unfold isMonthPlanConfirmed.
  destruct a; try reflexivity; simpl; rewrite lookup_insert;
    case_decide; reflexivity.
Qed.

(** C8: [updateWeekPlan] stores the given dates for the week and leaves
    the week unconfirmed, whatever was stored before, the same dates
    included; [updateFastPlan] does so for a month.  Among the
    operations, a confirmation flag is raised only by the confirm
    operation for its key and lowered only by the plan update for its
    key. *)
Theorem update_plan_unconfirms st :
  (forall weekKey dates,
     weekPlans (updateWeekPlan st weekKey dates) !! weekKey
     = Some {| week_dates := dates |}
     /\ isWeekPlanConfirmed (updateWeekPlan st weekKey dates) weekKey = false)
  /\ (forall monthKey dates,
        fastPlans (updateFastPlan st monthKey dates) !! monthKey
        = Some {| fast_dates := dates |}
        /\ isMonthPlanConfirmed (updateFastPlan st monthKey dates) monthKey = false)
  /\ (forall a weekKey,
        isWeekPlanConfirmed st weekKey = false ->
        isWeekPlanConfirmed (run st a) weekKey = true ->
        a = ConfirmWeekPlan weekKey)
  /\ (forall a weekKey,
        isWeekPlanConfirmed st weekKey = true ->
        isWeekPlanConfirmed (run st a) weekKey = false ->
        exists dates, a = UpdateWeekPlan weekKey dates)
  /\ (forall a monthKey,
        isMonthPlanConfirmed st monthKey = false ->
        isMonthPlanConfirmed (run st a) monthKey = true ->
        a = ConfirmMonthPlan monthKey)
  /\ (forall a monthKey,
        isMonthPlanConfirmed st monthKey = true ->
        isMonthPlanConfirmed (run st a) monthKey = false ->
        exists dates, a = UpdateFastPlan monthKey dates).
Proof.
  repeat apply conj.
  - intros weekKey dates. unfold isWeekPlanConfirmed. simpl.
    rewrite !lookup_insert_eq. split; reflexivity.
  - intros monthKey dates. unfold isMonthPlanConfirmed. simpl.
    rewrite !lookup_insert_eq. split; reflexivity.
  - intros a weekKey H0 H1. rewrite run_week_confirmation in H1.
    destruct a; try congruence; case_decide; congruence.
  - intros a weekKey H1 H0. rewrite run_week_confirmation in H0.
    destruct a; try congruence; case_decide; try congruence.
    subst. eexists; reflexivity.
  - intros a monthKey H0 H1. rewrite run_month_confirmation in H1.
    destruct a; try congruence; case_decide; congruence.
  - intros a monthKey H1 H0. rewrite run_month_confirmation in H0.
    destruct a; try congruence; case_decide; try congruence.
    subst. eexists; reflexivity.
Qed.

(** The confirmed week of June 9 is written again with the dates it
    already has, and is unconfirmed. *)
Lemma update_plan_unconfirms_witness :
  let st := juneState "2024-06-01" [] in
  let dates := ["2024-06-10"; "2024-06-12"; "2024-06-14"] in
  weekPlans st !! "2024-06-09" = Some {| week_dates := dates |}
  /\ isWeekPlanConfirmed st "2024-06-09" = true
  /\ isWeekPlanConfirmed (updateWeekPlan st "2024-06-09" dates) "2024-06-09" = false
  /\ (exists dates', UpdateWeekPlan "2024-06-09" dates
                     = UpdateWeekPlan "2024-06-09" dates').
Proof.
  intros st dates.
  split; [reflexivity|split; [reflexivity|split]].
  - exact (proj2 (proj1 (update_plan_unconfirms st) "2024-06-09" dates)).
  - exact (proj1 (proj2 (proj2 (proj2 (update_plan_unconfirms st))))
                 (UpdateWeekPlan "2024-06-09" dates) "2024-06-09"
                 eq_refl eq_refl).
Defined.

(* ===================================================================== *)
(** * Weights and their missed flags                                      *)
(* ===================================================================== *)

(** [updateDay] keeps the invariant when its updater does. *)
Lemma updateDay_exclusive st date updater :
  (forall day, weightExclusive day = true -> weightExclusive (updater day) = true) ->
  daysExclusive st -> daysExclusive (updateDay st date updater).
Proof.
  intros Hup Hst dayKey day Hin. unfold updateDay in Hin. simpl in Hin.
  apply obj_set_In in Hin as [[= -> ->]|Hin]; [|exact (Hst _ _ Hin)].
  apply Hup. destruct (obj_get (days st) date) as [stored|] eqn:E; simpl.
  - exact (Hst _ _ (obj_get_In _ _ _ E)).
  - reflexivity.
Qed.

Lemma with_diet_exclusive day d :
  weightExclusive (with_diet day d) = weightExclusive day.
Proof. reflexivity. Qed.

Lemma with_yesNo_exclusive day key value :
  weightExclusive (with_yesNo day key value) = weightExclusive day.
Proof. reflexivity. Qed.

Lemma setWeight_updater_exclusive day key value :
  weightExclusive day = true ->
  weightExclusive
    (with_weight day key value
       (if value is Some _ then Some false else missed_of day key)) = true.
Proof.
  unfold weightExclusive.
  destruct key, value, day as [d di de dp mp [wm|] [wn|] [[]|] [[]|] wl wf];
    cbn; intros H; try reflexivity; try discriminate H.
Qed.

Lemma toggle_updater_exclusive day key :
  weightExclusive day = true ->
  weightExclusive
    (with_weight day key
       (if negb (truthy (missed_of day key)) then None else weight_of day key)
       (Some (negb (truthy (missed_of day key))))) = true.
Proof.
  unfold weightExclusive.
  destruct key, day as [d di de dp mp [wm|] [wn|] [[]|] [[]|] wl wf];
    cbn; intros H; try reflexivity; try discriminate H.
Qed.

Lemma weight_of_with_weight day key value missed :
  weight_of (with_weight day key value missed) key = value
  /\ missed_of (with_weight day key value missed) key = missed.
Proof. destruct key; split; reflexivity. Qed.

(** C9: a day never has both a weight and a true missed flag for the
    same weighing.  A freshly created day has neither; every operation
    keeps the property on all recorded days; [setWeightValue] with a
    value stores it and clears the flag; [toggleWeightMissed] that turns
    the flag on clears the value. *)
Theorem weight_exclusive_invariant :
  (forall date, weightExclusive (createEmptyDay date) = true)
  /\ (forall st a, daysExclusive st -> daysExclusive (run st a))
  /\ (forall st date key value,
        exists day,
          obj_get (days (setWeightValue st date key (Some value))) date = Some day
          /\ weight_of day key = Some value
          /\ missed_of day key = Some false)
  /\ (forall st date key,
        exists day,
          obj_get (days (toggleWeightMissed st date key)) date = Some day
          /\ (missed_of day key = Some true -> weight_of day key = None)).
Proof.
  split; [reflexivity|split; [|split]].
  - intros st a Hst.
    destruct a; simpl; try exact Hst;
      (apply updateDay_exclusive; [intros day|exact Hst]).
    + rewrite with_diet_exclusive. trivial.
    + rewrite with_yesNo_exclusive. trivial.
    + apply setWeight_updater_exclusive.
    + apply toggle_updater_exclusive.
  - intros st date key value. eexists. split.
    + unfold setWeightValue, updateDay. simpl. apply obj_get_set_eq.
    + apply weight_of_with_weight.
  - intros st date key. eexists. split.
    + unfold toggleWeightMissed, updateDay. simpl. apply obj_get_set_eq.
    + set (current := default (createEmptyDay date) (obj_get (days st) date)).
      destruct (weight_of_with_weight current key
                  (if negb (truthy (missed_of current key))
                   then None else weight_of current key)
                  (Some (negb (truthy (missed_of current key))))) as [-> ->].
      intros [= ->]. reflexivity.
Qed.

(** June 9 weighed at 150.2 in the morning: marking the morning missed
    drops the weight and keeps the recorded days exclusive. *)
Lemma weight_exclusive_invariant_witness :
  let st := juneState "2024-06-01"
              [("2024-06-09", weighed "2024-06-09" (Some (lbs 1502)) None)] in
  let missed := run st (ToggleWeightMissed "2024-06-09" WeightKey.weightMorning) in
  daysExclusive missed
  /\ (weightMorning <$> obj_get (days missed) "2024-06-09") = Some None
  /\ (weightMorningMissed <$> obj_get (days missed) "2024-06-09")
     = Some (Some true).
Proof.
  intros st missed. split; [|split; reflexivity].
  apply (proj1 (proj2 weight_exclusive_invariant) st).
  intros dayKey day [[= <- <-]|[]]. reflexivity.
Defined.

(* ===================================================================== *)
(** * Pass conflicts                                                      *)
(* ===================================================================== *)

Lemma getPassConflict_find st date key :
  getPassConflict st date key
  = List.find (conflictsWith st date key) (Object_keys (days st)).
Proof.
  unfold getPassConflict. generalize (Object_keys (days st)) as keys.
  induction keys as [|dayKey keys IH]; [reflexivity|].
  cbn [getPassConflict_loop List.find]. unfold conflictsWith at 1.
  unfold sameWeek, usesPass.
  destruct (String.eqb dayKey date); [exact IH|].
  destruct (String.eqb (getWeekKey (parseDate dayKey)) _); [|exact IH].
  cbn. destruct (obj_get (days st) dayKey) as [day|]; [|exact IH].
  destruct (strict_eq (pass_of day key) yes); [reflexivity|exact IH].
Qed.






(* ===================================================================== *)
(** * Rolling averages                                                    *)
(* ===================================================================== *)










Lemma window_nth t n i :
  (i < Z.to_nat n)%nat ->
  nth_error (window t n) i
  = Some (formatDate (JS.LocalDay (t - (n - 1) + Z.of_nat i)%Z)).
Proof.
  intros Hi. unfold window. rewrite nth_error_map, nth_error_seq.
  destruct (Nat.ltb_spec i (Z.to_nat n)); [reflexivity|lia].
Qed.




(* ===================================================================== *)
(** * Further properties                                                  *)
(* ===================================================================== *)

(** ** Dates *)

(** X1: from the year 100 on [parseDate] reads back the day that
    [formatDate] wrote, so no two days are written alike. *)
Theorem formatDate_roundtrip t :
  modern t = true ->
  parseDate (formatDate (JS.LocalDay t)) = JS.LocalDay t
  /\ (forall t', modern t' = true ->
        formatDate (JS.LocalDay t) = formatDate (JS.LocalDay t') -> t = t').
Proof.
  intros Ht. split; [apply parseDate_formatDate, Ht|].
  intros t' Ht' E. exact (formatDate_inj t t' Ht Ht' E).
Qed.

Lemma formatDate_roundtrip_witness :
  parseDate (formatDate (JS.LocalDay 19883)) = JS.LocalDay 19883.
Proof.
  apply (proj1 (formatDate_roundtrip 19883 ltac:(vm_compute; reflexivity))).
Defined.

(** X2: outside the years 0..99 [addDays] moves a date by exactly
    [amount] calendar days, over the ends of months and years, so two
    moves add up; an invalid date or amount gives an invalid date. *)
Theorem addDays_moves :
  (forall t k,
     shortYear t = false ->
     addDays (JS.LocalDay t) (Some k) = JS.LocalDay (t + k)%Z)
  /\ (forall t a b,
        shortYear t = false -> shortYear (t + a)%Z = false ->
        addDays (addDays (JS.LocalDay t) (Some a)) (Some b)
        = addDays (JS.LocalDay t) (Some (a + b)%Z))
  /\ (forall amount, addDays JS.Invalid amount = JS.Invalid)
  /\ (forall date, addDays date None = JS.Invalid).
Proof.
  split; [exact addDays_LocalDay|split; [|split]].
  - intros t a b Ht Hta. rewrite !addDays_LocalDay by assumption.
    f_equal. lia.
  - reflexivity.
  - intros [|t]; reflexivity.
Qed.

(** The day after 2024-02-29 and the day after 2023-12-31. *)
Lemma addDays_moves_witness :
  formatDate (addDays (parseDate "2024-02-29") (Some 1%Z)) = "2024-03-01"
  /\ addDays (JS.LocalDay 19722) (Some 1%Z) = JS.LocalDay 19723.
Proof.
  split; [vm_compute; reflexivity|].
  apply (proj1 addDays_moves 19722%Z 1%Z). vm_compute. reflexivity.
Defined.

(** X3: outside the years 0..99 [getWeekStart] is the Sunday on or
    before the date, at most six days back, and a Sunday is its own
    week start. *)
Theorem getWeekStart_sunday t :
  shortYear t = false ->
  exists s,
    getWeekStart (JS.LocalDay t) = JS.LocalDay s
    /\ JS.getDay (JS.LocalDay s) = Some 0%Z
    /\ (t - 6 <= s <= t)%Z
    /\ (shortYear s = false -> getWeekStart (JS.LocalDay s) = JS.LocalDay s).
Proof.
  intros Ht. exists (sundayOf t).
  assert (Hsun : ((sundayOf t + 4) mod 7 = 0)%Z).
  { unfold sundayOf.
    replace (t - (t + 4) mod 7 + 4)%Z with ((t + 4) - (t + 4) mod 7)%Z by lia.
    pose proof (Z.div_mod (t + 4) 7 ltac:(lia)) as Hdm.
    replace ((t + 4) - (t + 4) mod 7)%Z with (((t + 4) / 7) * 7)%Z by lia.
    apply Z.mod_mul. lia. }
  split; [apply getWeekStart_LocalDay, Ht|].
  split; [simpl; f_equal; exact Hsun|].
  split; [apply sundayOf_bounds|].
  intros Hs. rewrite getWeekStart_LocalDay by exact Hs.
  f_equal. unfold sundayOf at 1. rewrite Hsun. lia.
Qed.

(** Wednesday 2024-06-12 belongs to the week of Sunday 2024-06-09. *)
Lemma getWeekStart_sunday_witness :
  exists s, getWeekStart (JS.LocalDay 19886) = JS.LocalDay s
            /\ JS.getDay (JS.LocalDay s) = Some 0%Z.
Proof.
  destruct (getWeekStart_sunday 19886 ltac:(vm_compute; reflexivity))
    as (s & Hs & Hd & _).
  exists s. split; assumption.
Defined.

(** X4: from the year 100 on two dates have the same week key exactly
    when the same Sunday comes on or before them, and the key is that
    Sunday's date: the seven days from a Sunday share it. *)
Theorem getWeekKey_classifies :
  (forall a b,
     modern (a - 6) = true -> modern (b - 6) = true ->
     (getWeekKey (JS.LocalDay a) = getWeekKey (JS.LocalDay b)
      <-> sundayOf a = sundayOf b))
  /\ (forall s i,
        modern s = true -> ((s + 4) mod 7 = 0)%Z -> (0 <= i <= 6)%Z ->
        getWeekKey (JS.LocalDay (s + i)) = formatDate (JS.LocalDay s)).
Proof.
  split.
  - intros a b Ha Hb.
    pose proof (sameWeek_formatDate a b Ha Hb) as H.
    unfold sameWeek in H.
    assert (Ma : modern a = true) by (apply (modern_mono (a - 6)); [lia|exact Ha]).
    assert (Mb : modern b = true) by (apply (modern_mono (b - 6)); [lia|exact Hb]).
    rewrite !parseDate_formatDate in H by assumption.
    split.
    + intros E. apply String.eqb_eq in E. rewrite E in H.
      symmetry in H. apply bool_decide_eq_true in H. exact H.
    + intros E. rewrite (bool_decide_eq_true_2 _ E) in H.
      apply String.eqb_eq in H. exact H.
  - intros s i Hs Hsun Hi.
    assert (Msi : modern (s + i) = true)
      by (apply (modern_mono s); [lia|exact Hs]).
    unfold getWeekKey.
    rewrite getWeekStart_LocalDay by (apply modern_not_short, Msi).
    do 2 f_equal. unfold sundayOf.
    replace (s + i + 4)%Z with (i + (s + 4))%Z by lia.
    rewrite Z.add_mod, Hsun, Z.add_0_r, Z.mod_mod by lia.
    rewrite Z.mod_small by lia. lia.
Qed.

(** Monday and Saturday of the week of Sunday 2024-06-09. *)
Lemma getWeekKey_classifies_witness :
  getWeekKey (JS.LocalDay 19884) = getWeekKey (JS.LocalDay 19889)
  /\ getWeekKey (JS.LocalDay (19883 + 6)) = formatDate (JS.LocalDay 19883).
Proof.
  split.
  - apply (proj1 getWeekKey_classifies 19884%Z 19889%Z);
      vm_compute; reflexivity.
  - apply (proj2 getWeekKey_classifies 19883%Z 6%Z);
      [vm_compute; reflexivity|vm_compute; reflexivity|lia].
Defined.

Lemma string_append_assoc (a b c : string) : (a ++ b) ++ c = a ++ b ++ c.
Proof.
  induction a as [|x a IH]; [reflexivity|].
  change (String x ((a ++ b) ++ c) = String x (a ++ b ++ c)).
  f_equal. exact IH.
Qed.

Lemma civil_fields t :
  JS.civil_from_days t = (yearOf t, monthOf t, dayOf t).
Proof.
  unfold yearOf, monthOf, dayOf.
  destruct (JS.civil_from_days t) as [[y m] d]. reflexivity.
Qed.

Lemma civil_fields_range t :
  (1 <= monthOf t <= 12)%Z /\ (1 <= dayOf t <= 31)%Z.
Proof.
  pose proof (civil_from_days_spec t) as H. rewrite civil_fields in H.
  destruct H as (_ & Hm & Hd & _). split; assumption.
Qed.

(** The pieces of a month key, read as numbers. *)
Lemma getMonthKey_pieces t :
  modern t = true ->
  map JS.Number (JS.split "-" (getMonthKey (JS.LocalDay t)))
  = [Some (yearOf t); Some (monthOf t)].
Proof.
  unfold modern. intros Hy. apply Z.leb_le in Hy.
  destruct (civil_fields_range t) as [Hm _].
  unfold getMonthKey, JS.getFullYear, JS.getMonth. rewrite civil_fields.
  cbn [fst snd JS.int_add].
  rewrite split_digits by (apply all_digits_String; lia).
  rewrite split_digits_end by (apply all_digits_pad; lia).
  cbn [map]. rewrite Number_String, Number_pad by lia.
  do 3 f_equal. lia.
Qed.

(** X5: a date written by [formatDate] starts with its month key, and
    from the year 100 on two days have the same month key exactly when
    they lie in the same month of the same year. *)
Theorem getMonthKey_classifies :
  (forall date,
     formatDate date = getMonthKey date ++ "-" ++ pad (JS.getDate date))
  /\ (forall a b,
        modern a = true -> modern b = true ->
        (getMonthKey (JS.LocalDay a) = getMonthKey (JS.LocalDay b)
         <-> yearOf a = yearOf b /\ monthOf a = monthOf b)).
Proof.
  split.
  - intros date. unfold formatDate, getMonthKey.
    rewrite !string_append_assoc. reflexivity.
  - intros a b Ha Hb. split.
    + intros E.
      pose proof (getMonthKey_pieces a Ha) as Pa.
      pose proof (getMonthKey_pieces b Hb) as Pb.
      rewrite E, Pb in Pa. injection Pa as Hy Hm. split; congruence.
    + intros [Hy Hm]. unfold getMonthKey, JS.getFullYear, JS.getMonth.
      rewrite !civil_fields. cbn [fst snd]. rewrite Hy, Hm. reflexivity.
Qed.

(** June 1 and June 30, 2024. *)
Lemma getMonthKey_classifies_witness :
  getMonthKey (JS.LocalDay 19875) = getMonthKey (JS.LocalDay 19904).
Proof.
  apply (proj2 getMonthKey_classifies 19875%Z 19904%Z);
    vm_compute; try reflexivity. split; reflexivity.
Defined.

Section MonthLengths.
Import JS.
Local Open Scope Z_scope.

Lemma month_days_ok_all :
  all_from month_days_ok 13 0 = true.
Proof. vm_cast_no_check (eq_refl true). Qed.

Lemma isLeapYear_shift y k : isLeapYear (y + 400 * k) = isLeapYear y.
Proof.
  unfold isLeapYear.
  replace (y + 400 * k) with (y + (100 * k) * 4) at 1 by lia.
  replace (y + 400 * k) with (y + (4 * k) * 100) at 1 by lia.
  replace (y + 400 * k) with (y + k * 400) by lia.
  rewrite !Z_mod_plus_full. reflexivity.
Qed.

Lemma MakeDay_shift y m d k :
  MakeDay (y + 400 * k) m d = MakeDay y m d + 146097 * k.
Proof.
  unfold MakeDay. cbv zeta.
  replace (y + 400 * k + m / 12) with (y + m / 12 + 400 * k) by lia.
  rewrite days_from_civil_shift. lia.
Qed.

Lemma dayOf_shift z k : dayOf (z + 146097 * k) = dayOf z.
Proof.
  unfold dayOf. rewrite civil_from_days_shift.
  destruct (civil_from_days z) as [[y m] d]. reflexivity.
Qed.

Lemma month_days_ok_eq n :
  month_days_ok n = true ->
  dayOf (MakeDay (n / 12) (n mod 12 + 1) 0)
  = monthLength (n / 12) (n mod 12 + 1).
Proof. unfold month_days_ok. apply Z.eqb_eq. Qed.

(** The last day of month [m + 1] of year [y]. *)
Lemma last_day_of_month y m :
  0 <= m <= 11 -> dayOf (MakeDay y (m + 1) 0) = monthLength y (m + 1).
Proof.
  intros Hm.
  set (k := y / 400). set (y0 := y mod 400).
  assert (Hy : y = y0 + 400 * k)
    by (unfold y0, k; pose proof (Z.div_mod y 400); lia).
  assert (Hy0 : 0 <= y0 < 400) by (apply Z.mod_pos_bound; lia).
  clearbody y0 k. subst y.
  pose proof (all_from_spec _ _ _ month_days_ok_all (y0 * 12 + m)) as Hok.
  change (2 ^ Z.of_nat 13) with 8192 in Hok.
  specialize (Hok ltac:(lia)). apply month_days_ok_eq in Hok.
  assert (Hd : (y0 * 12 + m) / 12 = y0)
    by (symmetry; apply (Z.div_unique _ 12 y0 m); lia).
  assert (Hr : (y0 * 12 + m) mod 12 = m)
    by (symmetry; apply (Z.mod_unique _ 12 y0 m); lia).
  rewrite Hd, Hr in Hok.
  rewrite MakeDay_shift, dayOf_shift, Hok.
  unfold monthLength. rewrite isLeapYear_shift. reflexivity.
Qed.

End MonthLengths.

(** X6: for a month index in 0..11 and a year outside 0..99,
    [getDaysInMonth] is the length of that month in the Gregorian
    calendar, February having 29 days in leap years. *)
Theorem getDaysInMonth_length y m :
  (0 <= m <= 11)%Z ->
  (y < 0 \/ 99 < y)%Z ->
  getDaysInMonth (Some y) (Some m) = Some (monthLength y (m + 1)).
Proof.
  intros Hm Hy. rewrite <- (last_day_of_month y m Hm).
  unfold getDaysInMonth, JS.int_add, JS.new_Date.
  assert (E : (0 <=? y)%Z && (y <=? 99)%Z = false) by lia.
  rewrite E. unfold JS.getDate, dayOf. reflexivity.
Qed.

(** February 2024, February 1900 and December 2024. *)
Lemma getDaysInMonth_length_witness :
  getDaysInMonth (Some 2024%Z) (Some 1%Z) = Some 29%Z
  /\ getDaysInMonth (Some 1900%Z) (Some 1%Z) = Some 28%Z
  /\ getDaysInMonth (Some 2024%Z) (Some 11%Z) = Some 31%Z.
Proof.
  split; [|split].
  - apply (getDaysInMonth_length 2024 1); lia.
  - apply (getDaysInMonth_length 1900 1); lia.
  - apply (getDaysInMonth_length 2024 11); lia.
Defined.

(** X7: [buildDateRange] has as many dates as asked, none for a count of
    zero or less; outside the years 0..99 they are consecutive calendar
    days of which the end date is the last; for an invalid end date
    every entry is the text of an invalid date. *)
Theorem buildDateRange_shape :
  (forall endDate n, length (buildDateRange endDate n) = Z.to_nat n)
  /\ (forall endDate n, (n <= 0)%Z -> buildDateRange endDate n = [])
  /\ (forall t n i,
        shortYear t = false -> (i < Z.to_nat n)%nat ->
        buildDateRange (JS.LocalDay t) n !! i
        = Some (formatDate (JS.LocalDay (t - (n - 1) + Z.of_nat i)%Z)))
  /\ (forall n day,
        In day (buildDateRange JS.Invalid n) -> day = "NaN-NaN-NaN").
Proof.
  split; [|split; [|split]].
  - intros endDate n. unfold buildDateRange.
    rewrite length_map, length_seq. reflexivity.
  - intros endDate n Hn. unfold buildDateRange.
    replace (Z.to_nat n) with 0%nat by lia. reflexivity.
  - intros t n i Ht Hi. rewrite buildDateRange_window by exact Ht.
    unfold window. rewrite list_lookup_fmap, lookup_seq_lt by exact Hi.
    reflexivity.
  - intros n day Hin. unfold buildDateRange in Hin.
    apply in_map_iff in Hin as (i & <- & _). reflexivity.
Qed.

(** The last of the seven days up to 2024-06-10 is that day. *)
Lemma buildDateRange_shape_witness :
  buildDateRange (JS.LocalDay 19884) 7 !! 6%nat = Some "2024-06-10".
Proof.
  apply (proj1 (proj2 (proj2 buildDateRange_shape)) 19884%Z 7%Z 6%nat);
    [vm_compute; reflexivity|vm_compute; lia].
Defined.

(** ** Writing and reading days *)

(** [getDay] is the current record over the defaults, and after
    [updateDay] the updated one over the defaults. *)
Lemma getDay_current st date :
  getDay st date = withDefaults date (currentDay st date).
Proof.
  unfold getDay, currentDay.
  destruct (obj_get (days st) date); reflexivity.
Qed.

Lemma getDay_updateDay st date updater :
  getDay (updateDay st date updater) date
  = withDefaults date (updater (currentDay st date)).
Proof.
  unfold getDay at 1. unfold updateDay. simpl.
  rewrite obj_get_set_eq. reflexivity.
Qed.

Lemma currentDay_updateDay st date updater :
  currentDay (updateDay st date updater) date = updater (currentDay st date).
Proof.
  unfold currentDay at 1. unfold updateDay. simpl.
  rewrite obj_get_set_eq. reflexivity.
Qed.

Lemma getDay_updateDay_other st date updater date' :
  date' <> date -> getDay (updateDay st date updater) date' = getDay st date'.
Proof.
  intros Hne. unfold getDay, updateDay. simpl.
  rewrite obj_get_set_ne by congruence. reflexivity.
Qed.

Lemma union_Some_default {A} (x : option A) (d : A) :
  x ∪ Some d = Some (default d x).
Proof. destruct x; reflexivity. Qed.

(** X8: after [setDietValue], [getDay] shows the answer under its diet
    key; the other diet answers and the other properties of that day,
    and every other day, read as before. *)
Theorem setDietValue_read st date key value :
  let st' := setDietValue st date key value in
  diet (getDay st' date) !! key = Some value
  /\ (forall key', key' <> key ->
        diet (getDay st' date) !! key' = diet (getDay st date) !! key')
  /\ (forall k, yesNo_of (getDay st' date) k = yesNo_of (getDay st date) k)
  /\ (forall k, weight_of (getDay st' date) k = weight_of (getDay st date) k)
  /\ (forall k, missed_of (getDay st' date) k = missed_of (getDay st date) k)
  /\ (forall date', date' <> date -> getDay st' date' = getDay st date').
Proof.
  intros st'. unfold st', setDietValue.
  rewrite getDay_updateDay, getDay_current.
  generalize (currentDay st date) as day. intros day.
  split; [|split; [|split; [|split; [|split]]]].
  - cbn. rewrite lookup_union, lookup_insert_eq.
    destruct (emptyDiet !! key); reflexivity.
  - intros key' Hne. cbn.
    rewrite !lookup_union, lookup_insert_ne by congruence. reflexivity.
  - intros []; reflexivity.
  - intros []; reflexivity.
  - intros []; reflexivity.
  - intros date' Hne. apply getDay_updateDay_other, Hne.
Qed.

(** Answering the refined-carbs rule of June 9 leaves its fruit rule. *)
Lemma setDietValue_read_witness :
  let st := juneState "2024-06-01" [("2024-06-09", partialDay)] in
  diet (getDay (setDietValue st "2024-06-09" refinedCarbs no) "2024-06-09")
    !! nonKetoFruits
  = diet (getDay st "2024-06-09") !! nonKetoFruits.
Proof.
  intros st.
  apply (proj1 (proj2 (setDietValue_read st "2024-06-09" refinedCarbs no))).
  discriminate.
Defined.

(** X9: after [setDayValue] on a yes/no property, [getDay] shows the
    value under that property; the other yes/no properties, the diet
    answers, the weights and their flags, and every other day, read as
    before. *)
Theorem setDayValue_read st date key value :
  let st' := setDayValue st date (YesNoValue key value) in
  yesNo_of (getDay st' date) key = Some value
  /\ (forall k, k <> key ->
        yesNo_of (getDay st' date) k = yesNo_of (getDay st date) k)
  /\ diet (getDay st' date) = diet (getDay st date)
  /\ (forall k, weight_of (getDay st' date) k = weight_of (getDay st date) k)
  /\ (forall k, missed_of (getDay st' date) k = missed_of (getDay st date) k)
  /\ (forall date', date' <> date -> getDay st' date' = getDay st date').
Proof.
  intros st'. unfold st', setDayValue.
  rewrite getDay_updateDay, getDay_current.
  generalize (currentDay st date) as day. intros day.
  split; [|split; [|split; [|split; [|split]]]].
  - destruct key; reflexivity.
  - intros k Hne. destruct key, k; try reflexivity; congruence.
  - reflexivity.
  - intros []; reflexivity.
  - intros []; reflexivity.
  - intros date' Hne. apply getDay_updateDay_other, Hne.
Qed.

(** Answering the meal pass of June 9 leaves its dessert pass. *)
Lemma setDayValue_read_witness :
  let st := juneState "2024-06-01" [("2024-06-09", partialDay)] in
  yesNo_of (getDay (setDayValue st "2024-06-09"
                      (YesNoValue YesNoKey.mealPass yes)) "2024-06-09")
           YesNoKey.dessertPass
  = yesNo_of (getDay st "2024-06-09") YesNoKey.dessertPass.
Proof.
  intros st.
  apply (proj1 (proj2 (setDayValue_read st "2024-06-09" YesNoKey.mealPass yes))).
  discriminate.
Defined.

(** X10: no operation changes [trackingStart]; the operations on a day
    change no plan and no confirmation, so leave every lifting day and
    fast day as it was; the operations on plans and confirmations
    change no recorded day. *)
Theorem run_frame st a :
  trackingStart (run st a) = trackingStart st
  /\ (writesDay a = true ->
      weekPlans (run st a) = weekPlans st
      /\ fastPlans (run st a) = fastPlans st
      /\ confirmedWeeks (run st a) = confirmedWeeks st
      /\ confirmedMonths (run st a) = confirmedMonths st
      /\ (forall date, isLiftingDay (run st a) date = isLiftingDay st date)
      /\ (forall date, isFastDay (run st a) date = isFastDay st date))
  /\ (writesDay a = false ->
      days (run st a) = days st
      /\ forall date, getDay (run st a) date = getDay st date).
Proof.
  split; [destruct a; reflexivity|split].
  - intros Ha. destruct a; try discriminate Ha; repeat split.
  - intros Ha. destruct a; try discriminate Ha; repeat split.
Qed.

Lemma run_frame_witness :
  isLiftingDay
    (run (juneState "2024-06-01" []) (SetDayValue "2024-06-10" YesNoKey.mealPass yes))
    "2024-06-10" = true.
Proof.
  destruct (proj1 (proj2 (run_frame (juneState "2024-06-01" [])
                             (SetDayValue "2024-06-10" YesNoKey.mealPass yes)))
                  eq_refl) as (_ & _ & _ & _ & Hlift & _).
  rewrite Hlift. vm_compute. reflexivity.
Defined.

Lemma obj_set_keys {A} (o : list (string * A)) k v :
  (In k (Object_keys o) /\ Object_keys (obj_set o k v) = Object_keys o)
  \/ (~ In k (Object_keys o)
      /\ Object_keys (obj_set o k v) = (Object_keys o ++ [k])%list).
Proof.
  unfold Object_keys. induction o as [|[k' v'] o IH]; simpl.
  - right. split; [tauto|reflexivity].
  - destruct (String.eqb_spec k' k) as [->|Hne]; simpl.
    + left. split; [left; reflexivity|reflexivity].
    + destruct IH as [[Hin ->]|[Hin ->]].
      * left. split; [right; exact Hin|reflexivity].
      * right. split; [intros [H|H]; [congruence|contradiction]|reflexivity].
Qed.

(** X11: an operation never removes or reorders a recorded date: the
    recorded keys stay as they are, with the written date added at the
    end when it was not recorded yet, and they stay free of
    repetitions. *)
Theorem run_keys st a :
  (exists added, Object_keys (days (run st a)) = (Object_keys (days st) ++ added)%list
                 /\ (added = [] \/ exists date, added = [date]
                                    /\ ~ In date (Object_keys (days st))))
  /\ (List.NoDup (Object_keys (days st)) ->
      List.NoDup (Object_keys (days (run st a)))).
Proof.
  assert (Hupd : forall date updater,
    exists added,
      Object_keys (days (updateDay st date updater))
      = (Object_keys (days st) ++ added)%list
      /\ (added = [] \/ exists d, added = [d] /\ ~ In d (Object_keys (days st)))).
  { intros date updater. unfold updateDay. simpl.
    destruct (obj_set_keys (days st) date
                (updater (default (createEmptyDay date) (obj_get (days st) date))))
      as [[Hin ->]|[Hin ->]].
    - exists []. rewrite app_nil_r. auto.
    - exists [date]. split; [reflexivity|]. right. exists date. auto. }
  assert (Hkeys : exists added,
    Object_keys (days (run st a)) = (Object_keys (days st) ++ added)%list
    /\ (added = [] \/ exists d, added = [d] /\ ~ In d (Object_keys (days st)))).
  { destruct a; cbn [run];
      unfold setDietValue, setDayValue, setWeightValue, toggleWeightMissed;
      try apply Hupd;
      (exists []; rewrite app_nil_r; split; [reflexivity|left; reflexivity]). }
  split; [exact Hkeys|].
  intros Hnd. destruct Hkeys as (added & -> & [->|(d & -> & Hd)]).
  - rewrite app_nil_r. exact Hnd.
  - apply List.NoDup_app; [exact Hnd|repeat constructor; intros []|].
    intros x Hx [->|[]]. exact (Hd Hx).
Qed.

Lemma run_keys_witness :
  List.NoDup (Object_keys
           (days (run (juneState "2024-06-01" passDays)
                      (SetDayValue "2024-06-13" YesNoKey.mealPass yes)))).
Proof.
  apply (proj2 (run_keys (juneState "2024-06-01" passDays)
                         (SetDayValue "2024-06-13" YesNoKey.mealPass yes))).
  vm_compute. repeat constructor; simpl; intuition discriminate.
Defined.

(** ** Completeness and the gate *)

Lemma getDay_allDefined st date : allDefined (getDay st date).
Proof.
  rewrite getDay_current. generalize (currentDay st date) as day.
  intros [d di de dp mp wm wn wmm wnm wl wf]. unfold allDefined. cbn.
  repeat split;
    try (intros key; rewrite lookup_union, emptyDiet_lookup;
         destruct (di !! key); eexists; reflexivity);
    match goal with |- is_Some (?x ∪ _) => destruct x; eexists; reflexivity end.
Qed.

Lemma strict_ne_null_answered v :
  is_Some v -> strict_ne v null = answered v.
Proof. intros [[] ->]; reflexivity. Qed.

(** X12: a date without a record is never complete, and a day read by
    [getDay] is complete only with the diet exception answered yes or
    no and both weighings logged or marked missed; when the exception
    is not taken, only with all five diet rules and both passes
    answered yes or no. *)
Theorem isDayComplete_needs st date :
  (obj_get (days st) date = None ->
   isDayComplete st (getDay st date) date = false)
  /\ (isDayComplete st (getDay st date) date = true ->
      answered (dietException (getDay st date)) = true
      /\ weightsLogged (getDay st date) = true
      /\ (dietException (getDay st date) <> Some yes ->
          (forall key, answered (diet (getDay st date) !! key) = true)
          /\ answered (dessertPass (getDay st date)) = true
          /\ answered (mealPass (getDay st date)) = true)).
Proof.
  split.
  - intros Hnone. unfold getDay. rewrite Hnone. reflexivity.
  - pose proof (getDay_allDefined st date) as Hdef.
    generalize dependent (getDay st date). intros day Hdef Hc.
    destruct Hdef as (_ & Hdiet & He & Hdp & Hmp & _).
    unfold isDayComplete in Hc.
    rewrite (strict_ne_null_answered _ He), (strict_ne_null_answered _ Hdp),
      (strict_ne_null_answered _ Hmp) in Hc.
    apply andb_prop in Hc as [Hc _]. apply andb_prop in Hc as [Hc _].
    apply andb_prop in Hc as [Hdietsec Hw].
    apply andb_prop in Hdietsec as [Hd Hpasses].
    apply andb_prop in Hd as [Hex Hrules].
    split; [exact Hex|]. split; [exact Hw|].
    intros Hnot.
    assert (Hneeds : strict_ne (dietException day) yes = true).
    { unfold strict_ne, strict_eq. apply negb_true_iff, bool_decide_eq_false.
      exact Hnot. }
    rewrite Hneeds in Hrules, Hpasses. simpl in Hrules, Hpasses.
    apply andb_prop in Hpasses as [Hp1 Hp2].
    split; [|split; assumption].
    intros key. unfold dietRulesAnswered in Hrules.
    rewrite forallb_forall in Hrules.
    rewrite <- (strict_ne_null_answered _ (Hdiet key)).
    apply Hrules. destruct key; simpl; tauto.
Qed.

(** Nothing is recorded for June 9. *)
Lemma isDayComplete_needs_witness :
  isDayComplete (juneState "2024-06-01" [])
                (getDay (juneState "2024-06-01" []) "2024-06-09") "2024-06-09"
  = false.
Proof.
  apply (proj1 (isDayComplete_needs (juneState "2024-06-01" []) "2024-06-09")).
  reflexivity.
Defined.

(** X13: with all five diet rules answered no the diet requirement is
    met whatever the exception and the passes say; one pass or the
    exception answered yes meets it whatever the rules say; an
    unanswered day does not meet it; and rules that are all clear are
    all answered. *)
Theorem dietRequirementSatisfied_cases day :
  ((forall key, diet day !! key = Some no) ->
   dietRequirementSatisfied day = true)
  /\ (dietException day = Some yes \/ dessertPass day = Some yes
      \/ mealPass day = Some yes -> dietRequirementSatisfied day = true)
  /\ (forall date, dietRequirementSatisfied (createEmptyDay date) = false)
  /\ (dietRulesAllClear day = true -> dietRulesAnswered day = true).
Proof.
  split; [|split; [|split]].
  - intros Hno. unfold dietRequirementSatisfied, dietRulesAllClear. simpl.
    rewrite !Hno. simpl. rewrite !orb_true_r. reflexivity.
  - unfold dietRequirementSatisfied.
    intros [H|[H|H]]; rewrite H; simpl; rewrite ?orb_true_r; reflexivity.
  - reflexivity.
  - unfold dietRulesAllClear, dietRulesAnswered. rewrite !forallb_forall.
    intros H key Hin. specialize (H key Hin).
    unfold strict_eq in H. apply bool_decide_eq_true in H. rewrite H.
    reflexivity.
Qed.

Lemma dietRequirementSatisfied_cases_witness :
  dietRequirementSatisfied (excepted "2024-06-11") = true.
Proof.
  apply (proj1 (proj2 (dietRequirementSatisfied_cases (excepted "2024-06-11")))).
  left. reflexivity.
Defined.

(** X14: the screen is unblocked exactly when the month plan and the
    week plan are ready and yesterday is before the start of tracking
    or complete; a gate always names the current month, the current
    week or yesterday; and a [trackingStart] that is no date exempts
    nothing. *)
Theorem getBlockingOverlay_none st today :
  (getBlockingOverlay st today = None
   <-> monthPlanReady st (getMonthKey today) = true
       /\ weekPlanReady st (getWeekKey today) = true
       /\ (beforeTracking st today = true
           \/ yesterdayIncomplete st today = false))
  /\ (forall gate,
        getBlockingOverlay st today = Some gate ->
        gate = Overlay.month (getMonthKey today)
        \/ gate = Overlay.week (getWeekKey today)
        \/ gate = Overlay.yesterday (yesterdayOf today))
  /\ (parseDate (trackingStart st) = JS.Invalid ->
      beforeTracking st today = false).
Proof.
  split; [|split].
  - destruct (monthPlanReady st (getMonthKey today)) eqn:Hm.
    + destruct (weekPlanReady st (getWeekKey today)) eqn:Hw.
      * rewrite getBlockingOverlay_plans_ready by assumption.
        destruct (beforeTracking st today), (yesterdayIncomplete st today);
          split; try tauto; try discriminate;
          intros (_ & _ & [H|H]); discriminate H.
      * rewrite getBlockingOverlay_week by assumption.
        split; [discriminate|]. intros (_ & H & _). discriminate H.
    + rewrite getBlockingOverlay_month by assumption.
      split; [discriminate|]. intros (H & _). discriminate H.
  - intros gate H.
    destruct (monthPlanReady st (getMonthKey today)) eqn:Hm.
    + destruct (weekPlanReady st (getWeekKey today)) eqn:Hw.
      * rewrite getBlockingOverlay_plans_ready in H by assumption.
        destruct (beforeTracking st today); [discriminate H|].
        destruct (yesterdayIncomplete st today); [|discriminate H].
        right. right. congruence.
      * rewrite getBlockingOverlay_week in H by assumption.
        right. left. congruence.
    + rewrite getBlockingOverlay_month in H by assumption. left. congruence.
  - intros Hinv. unfold beforeTracking. rewrite Hinv.
    destruct (parseDate (yesterdayOf today)); reflexivity.
Qed.

(** With a [trackingStart] that is no date, June 9 is asked for. *)
Lemma getBlockingOverlay_none_witness :
  beforeTracking (juneState "soon" []) june10 = false
  /\ getBlockingOverlay (juneState "soon" []) june10
     = Some (Overlay.yesterday "2024-06-09").
Proof.
  split.
  - apply (proj2 (proj2 (getBlockingOverlay_none (juneState "soon" []) june10))).
    vm_compute. reflexivity.
  - vm_compute. reflexivity.
Defined.

(** X15: writing a plan and then confirming it makes it ready exactly
    when three dates were written; confirming a plan never makes an
    incomplete one ready; and neither operation on a week touches the
    readiness of a month, or the other way round. *)
Theorem confirm_after_update st :
  (forall weekKey dates,
     weekPlanReady (confirmWeekPlan (updateWeekPlan st weekKey dates) weekKey)
                   weekKey
     = (length dates =? 3)%nat)
  /\ (forall monthKey dates,
        monthPlanReady
          (confirmMonthPlan (updateFastPlan st monthKey dates) monthKey) monthKey
        = (length dates =? 3)%nat)
  /\ (forall weekKey,
        weekPlanReady (confirmWeekPlan st weekKey) weekKey
        = isWeekPlanComplete st weekKey)
  /\ (forall monthKey,
        monthPlanReady (confirmMonthPlan st monthKey) monthKey
        = isMonthPlanComplete st monthKey)
  /\ (forall weekKey dates monthKey,
        monthPlanReady (updateWeekPlan st weekKey dates) monthKey
        = monthPlanReady st monthKey
        /\ monthPlanReady (confirmWeekPlan st weekKey) monthKey
           = monthPlanReady st monthKey)
  /\ (forall monthKey dates weekKey,
        weekPlanReady (updateFastPlan st monthKey dates) weekKey
        = weekPlanReady st weekKey
        /\ weekPlanReady (confirmMonthPlan st monthKey) weekKey
           = weekPlanReady st weekKey).
Proof.
  unfold weekPlanReady, monthPlanReady, isWeekPlanComplete, isWeekPlanConfirmed,
    isMonthPlanComplete, isMonthPlanConfirmed.
  repeat apply conj; intros; try split; simpl; rewrite ?lookup_insert_eq;
    simpl; rewrite ?andb_true_r; reflexivity.
Qed.

(** After the week plan is emptied, then written with three dates and
    confirmed, the gate moves on from the week to yesterday. *)
Lemma confirm_after_update_witness :
  let st := updateWeekPlan (juneState "2024-06-01" []) "2024-06-09" [] in
  let dates := ["2024-06-10"; "2024-06-11"; "2024-06-12"] in
  getBlockingOverlay st june10 = Some (Overlay.week "2024-06-09")
  /\ weekPlanReady (confirmWeekPlan (updateWeekPlan st "2024-06-09" dates)
                                    "2024-06-09") "2024-06-09" = true
  /\ getBlockingOverlay
       (confirmWeekPlan (updateWeekPlan st "2024-06-09" dates) "2024-06-09")
       june10 = Some (Overlay.yesterday "2024-06-09").
Proof.
  intros st dates. split; [vm_compute; reflexivity|split].
  - rewrite (proj1 (confirm_after_update st) "2024-06-09" dates). reflexivity.
  - vm_compute. reflexivity.
Defined.

(** ** Passes, weights, averages *)

Lemma find_first {A} (f : A -> bool) (l : list A) x :
  List.find f l = Some x ->
  exists before after,
    l = (before ++ x :: after)%list
    /\ f x = true /\ forall y, In y before -> f y = false.
Proof.
  induction l as [|a l IH]; simpl; [discriminate|].
  destruct (f a) eqn:Fa.
  - intros [= ->]. exists [], l. repeat split; [exact Fa|intros y []].
  - intros H. destruct (IH H) as (before & after & -> & Hx & Hb).
    exists (a :: before), after. repeat split; [exact Hx|].
    intros y [<-|Hy]; [exact Fa|exact (Hb y Hy)].
Qed.

(** X16: [getPassConflict] reports a conflict exactly when some other
    recorded date of the same week answers yes to the pass, and the one
    it reports is the first such date in the order of recording. *)
Theorem getPassConflict_first st date key :
  (getPassConflict st date key = None
   <-> forall dayKey, In dayKey (Object_keys (days st)) ->
                      conflictsWith st date key dayKey = false)
  /\ (forall found,
        getPassConflict st date key = Some found ->
        exists before after,
          Object_keys (days st) = (before ++ found :: after)%list
          /\ conflictsWith st date key found = true
          /\ forall dayKey, In dayKey before ->
                            conflictsWith st date key dayKey = false).
Proof.
  rewrite getPassConflict_find. split.
  - split.
    + intros H dayKey Hin. exact (List.find_none _ _ H dayKey Hin).
    + intros H. destruct (List.find _ _) as [found|] eqn:E; [|reflexivity].
      apply List.find_some in E as [Hin Hc]. rewrite (H _ Hin) in Hc.
      discriminate Hc.
  - intros found H. exact (find_first _ _ _ H).
Qed.

(** Asked from June 12, the pass of June 11 is found and that of June 4,
    recorded first but a week earlier, is passed over. *)
Lemma getPassConflict_first_witness :
  exists before after,
    Object_keys (days (juneState "2024-06-01" passDays))
    = (before ++ "2024-06-11" :: after)%list
    /\ conflictsWith (juneState "2024-06-01" passDays) "2024-06-12"
                     PassKey.dessertPass "2024-06-11" = true.
Proof.
  destruct (proj2 (getPassConflict_first (juneState "2024-06-01" passDays)
                     "2024-06-12" PassKey.dessertPass)
                  "2024-06-11" ltac:(vm_compute; reflexivity))
    as (before & after & Hk & Hc & _).
  exists before, after. split; assumption.
Defined.

(** X17: two [toggleWeightMissed] in a row put the missed flag back to
    what it was, as a boolean, and always leave the weight cleared: one
    of the two turns the flag on. *)
Theorem toggleWeightMissed_twice st date key :
  let st2 := toggleWeightMissed (toggleWeightMissed st date key) date key in
  weight_of (getDay st2 date) key = None
  /\ truthy (missed_of (getDay st2 date) key)
     = truthy (missed_of (getDay st date) key).
Proof.
  intros st2. unfold st2, toggleWeightMissed.
  rewrite getDay_updateDay, currentDay_updateDay, getDay_current.
  generalize (currentDay st date) as day.
  intros [d di de dp mp wm wn [[]|] [[]|] wl wf]; destruct key; split;
    reflexivity.
Qed.

(** June 9 weighed at 150.2 in the morning and not marked missed. *)
Lemma toggleWeightMissed_twice_witness :
  let st := juneState "2024-06-01"
              [("2024-06-09", weighed "2024-06-09" (Some (lbs 1502)) None)] in
  weightMorning (getDay st "2024-06-09") = Some (lbs 1502)
  /\ weight_of (getDay (toggleWeightMissed
                          (toggleWeightMissed st "2024-06-09" WeightKey.weightMorning)
                          "2024-06-09" WeightKey.weightMorning) "2024-06-09")
               WeightKey.weightMorning = None.
Proof.
  intros st. split; [reflexivity|].
  exact (proj1 (toggleWeightMissed_twice st "2024-06-09" WeightKey.weightMorning)).
Defined.








(** X20: a stored object that has all six properties loads as the state
    it holds; the text [null] and any value that is not an object load
    as the default state. *)
Theorem loadState_roundtrip now :
  (forall st raw,
     raw <> "" ->
     loadState now (Item raw (Some (JsonObject (allProperties st)))) = st)
  /\ (forall raw, loadState now (Item raw (Some JsonNull)) = defaultState now)
  /\ (forall raw, loadState now (Item raw (Some JsonOther)) = defaultState now).
Proof.
  split; [|split].
  - intros [ds wp fp ts cw cm] raw Hraw. simpl.
    apply String.eqb_neq in Hraw. rewrite Hraw. reflexivity.
  - intros raw. simpl. destruct (String.eqb raw ""); reflexivity.
  - intros raw. simpl. destruct (String.eqb raw ""); reflexivity.
Qed.

Lemma loadState_roundtrip_witness :
  loadState june10
            (Item weekOnlyText
                  (Some (JsonObject (allProperties (juneState "2024-06-01" passDays)))))
  = juneState "2024-06-01" passDays.
Proof.
  apply (proj1 (loadState_roundtrip june10)). vm_compute. discriminate.
Defined.

Section CalendarSteps.
Import JS.
Local Open Scope Z_scope.

Lemma next_days_ok : all_from next_day_ok 18 0 = true.
Proof. vm_cast_no_check (eq_refl true). Qed.

(** The day after day [z]. *)
Lemma civil_from_days_succ z :
  civil_from_days (z + 1)
  = if dayOf z <? monthLength (yearOf z) (monthOf z)
    then (yearOf z, monthOf z, dayOf z + 1)
    else if monthOf z =? 12 then (yearOf z + 1, 1, 1)
    else (yearOf z, monthOf z + 1, 1).
Proof.
  set (k := z / 146097). set (z0 := z mod 146097).
  assert (Hz : z = z0 + 146097 * k)
    by (unfold z0, k; pose proof (Z.div_mod z 146097); lia).
  assert (Hz0 : 0 <= z0 < 146097) by (apply Z.mod_pos_bound; lia).
  pose proof (all_from_spec _ _ _ next_days_ok z0) as Hok.
  change (2 ^ Z.of_nat 18) with 262144 in Hok.
  specialize (Hok ltac:(lia)). unfold next_day_ok in Hok.
  replace (146097 <=? z0) with false in Hok by lia.
  unfold yearOf, monthOf, dayOf. rewrite Hz.
  replace (z0 + 146097 * k + 1) with (z0 + 1 + 146097 * k) by lia.
  rewrite !civil_from_days_shift.
  destruct (civil_from_days z0) as [[y m] d].
  destruct (civil_from_days (z0 + 1)) as [[y' m'] d'].
  cbn [fst snd]. unfold monthLength in *. rewrite isLeapYear_shift.
  destruct (d <? _).
  - f_equal; [f_equal|]; lia.
  - destruct (m =? 12); f_equal; try f_equal; lia.
Qed.

Lemma dayOf_monthLength z : dayOf z <= monthLength (yearOf z) (monthOf z).
Proof.
  set (k := z / 146097). set (z0 := z mod 146097).
  assert (Hz : z = z0 + 146097 * k)
    by (unfold z0, k; pose proof (Z.div_mod z 146097); lia).
  assert (Hz0 : 0 <= z0 < 146097) by (apply Z.mod_pos_bound; lia).
  pose proof (all_from_spec _ _ _ next_days_ok z0) as Hok.
  change (2 ^ Z.of_nat 18) with 262144 in Hok.
  specialize (Hok ltac:(lia)). unfold next_day_ok in Hok.
  replace (146097 <=? z0) with false in Hok by lia.
  unfold yearOf, monthOf, dayOf. rewrite Hz.
  rewrite !civil_from_days_shift.
  destruct (civil_from_days z0) as [[y m] d].
  destruct (civil_from_days (z0 + 1)) as [[y' m'] d'].
  cbn [fst snd]. unfold monthLength in *. rewrite isLeapYear_shift.
  destruct (d <? _) eqn:E; lia.
Qed.

(** Within a month the days follow each other. *)
Lemma civil_from_days_within z k :
  0 <= k -> dayOf z + k <= monthLength (yearOf z) (monthOf z) ->
  civil_from_days (z + k) = (yearOf z, monthOf z, dayOf z + k).
Proof.
  intros Hk. revert k Hk.
  apply (natlike_ind (fun k => dayOf z + k <= _ -> civil_from_days (z + k) = _)).
  - intros _. rewrite !Z.add_0_r. apply civil_fields.
  - intros k Hk IH Hle. specialize (IH ltac:(lia)).
    replace (z + Z.succ k) with (z + k + 1) by lia.
    rewrite civil_from_days_succ. unfold yearOf, monthOf, dayOf in *.
    rewrite IH. cbn [fst snd].
    destruct (_ <? _) eqn:E; [f_equal; lia|lia].
Qed.

End CalendarSteps.

(** ** The order of texts *)

Lemma ascii_compare_refl c : Ascii.compare c c = Eq.
Proof. unfold Ascii.compare. apply N.compare_refl. Qed.

Lemma string_compare_refl s : String.compare s s = Eq.
Proof.
  induction s as [|c s IH]; [reflexivity|].
  simpl. rewrite ascii_compare_refl. exact IH.
Qed.

Lemma ascii_compare_lt_trans a b c :
  Ascii.compare a b = Lt -> Ascii.compare b c = Lt -> Ascii.compare a c = Lt.
Proof.
  unfold Ascii.compare. rewrite !N.compare_lt_iff. lia.
Qed.

Lemma string_compare_lt_trans a : forall b c,
  String.compare a b = Lt -> String.compare b c = Lt -> String.compare a c = Lt.
Proof.
  induction a as [|x a IH]; intros [|y b] [|z c]; simpl; try congruence.
  destruct (Ascii.compare x y) eqn:Exy; try discriminate.
  - apply Ascii.compare_eq_iff in Exy. subst y.
    destruct (Ascii.compare x z); try congruence. apply IH.
  - intros _. destruct (Ascii.compare y z) eqn:Eyz; try discriminate.
    + apply Ascii.compare_eq_iff in Eyz. subst z. rewrite Exy. reflexivity.
    + rewrite (ascii_compare_lt_trans _ _ _ Exy Eyz). reflexivity.
Qed.

(** Texts with heads of one length compare by the heads first. *)
Lemma string_compare_append a : forall b x y,
  String.length a = String.length b ->
  String.compare (a ++ x) (b ++ y)
  = match String.compare a b with
    | Eq => String.compare x y
    | c => c
    end.
Proof.
  induction a as [|c a IH]; intros [|d b] x y Hl; try discriminate Hl.
  - reflexivity.
  - change (String c a ++ x) with (String c (a ++ x)).
    change (String d b ++ y) with (String d (b ++ y)).
    cbn [String.compare]. destruct (Ascii.compare c d); try reflexivity.
    apply IH. simpl in Hl. congruence.
Qed.

(** A text that grows at every step grows along the way. *)
Lemma compare_steps (f : Z -> string) a b :
  (forall t, a <= t < b -> String.compare (f t) (f (t + 1)) = Lt)%Z ->
  (a < b)%Z -> String.compare (f a) (f b) = Lt.
Proof.
  intros Hstep Hab.
  assert (H : forall k, (0 <= k)%Z -> (a + k < b)%Z ->
                String.compare (f a) (f (a + k + 1)%Z) = Lt).
  { apply (natlike_ind (fun k => (a + k < b)%Z -> _)).
    - intros Hlt. rewrite Z.add_0_r. apply Hstep. lia.
    - intros k Hk IH Hlt.
      apply (string_compare_lt_trans _ (f (a + k + 1)%Z)).
      + apply IH. lia.
      + replace (a + Z.succ k)%Z with (a + k + 1)%Z by lia.
        apply Hstep. lia. }
  specialize (H (b - a - 1)%Z ltac:(lia) ltac:(lia)).
  replace (a + (b - a - 1) + 1)%Z with b in H by lia. exact H.
Qed.

Lemma year_texts_ok : all_from year_text_ok 14 0 = true.
Proof. vm_cast_no_check (eq_refl true). Qed.

Lemma pad_texts_ok : all_from pad_text_ok 7 0 = true.
Proof. vm_cast_no_check (eq_refl true). Qed.

Lemma String_lt_Lt a b : String_lt a b = true -> String.compare a b = Lt.
Proof. unfold String_lt. destruct (String.compare a b); congruence. Qed.

Lemma year_text_step y :
  (1000 <= y < 9999)%Z ->
  String.length (JS.String_ (Some y)) = 4%nat
  /\ String.length (JS.String_ (Some (y + 1)%Z)) = 4%nat
  /\ String.compare (JS.String_ (Some y)) (JS.String_ (Some (y + 1)%Z)) = Lt.
Proof.
  intros Hy.
  pose proof (all_from_spec _ _ _ year_texts_ok (y - 1000)%Z) as Hok.
  change (2 ^ Z.of_nat 14)%Z with 16384%Z in Hok.
  specialize (Hok ltac:(lia)). unfold year_text_ok in Hok.
  replace (1000 + (y - 1000))%Z with y in Hok by lia.
  replace (y <? 9999)%Z with true in Hok by lia.
  apply andb_prop in Hok as [Hok H3]. apply andb_prop in Hok as [H1 H2].
  apply Nat.eqb_eq in H1, H2. apply String_lt_Lt in H3. auto.
Qed.

Lemma year_text_length y :
  (1000 <= y <= 9999)%Z -> String.length (JS.String_ (Some y)) = 4%nat.
Proof.
  intros Hy. destruct (Z.eq_dec y 9999) as [->|Hne].
  - apply (year_text_step 9998). lia.
  - apply (year_text_step y). lia.
Qed.

Lemma pad_text_step n :
  (0 <= n < 99)%Z ->
  String.length (pad (Some n)) = 2%nat
  /\ String.length (pad (Some (n + 1)%Z)) = 2%nat
  /\ String.compare (pad (Some n)) (pad (Some (n + 1)%Z)) = Lt.
Proof.
  intros Hn.
  pose proof (all_from_spec _ _ _ pad_texts_ok n) as Hok.
  change (2 ^ Z.of_nat 7)%Z with 128%Z in Hok.
  specialize (Hok ltac:(lia)). unfold pad_text_ok in Hok.
  replace (n <? 99)%Z with true in Hok by lia.
  apply andb_prop in Hok as [Hok H3]. apply andb_prop in Hok as [H1 H2].
  apply Nat.eqb_eq in H1, H2. apply String_lt_Lt in H3. auto.
Qed.

Lemma pad_text_length n :
  (0 <= n <= 99)%Z -> String.length (pad (Some n)) = 2%nat.
Proof.
  intros Hn. destruct (Z.eq_dec n 99) as [->|Hne].
  - apply (pad_text_step 98). lia.
  - apply (pad_text_step n). lia.
Qed.

Lemma pad_text_lt a b :
  (0 <= a)%Z -> (a < b)%Z -> (b <= 99)%Z ->
  String.compare (pad (Some a)) (pad (Some b)) = Lt.
Proof.
  intros Ha Hab Hb. apply (compare_steps (fun n => pad (Some n))); [|exact Hab].
  intros t Ht. apply (pad_text_step t). lia.
Qed.

(** The text of a date in its pieces. *)
Lemma formatDate_fields t :
  formatDate (JS.LocalDay t)
  = JS.String_ (Some (yearOf t)) ++ "-" ++ pad (Some (monthOf t))
    ++ "-" ++ pad (Some (dayOf t)).
Proof.
  unfold formatDate, JS.getFullYear, JS.getMonth, JS.getDate.
  rewrite civil_fields. cbn [fst snd JS.int_add].
  replace (monthOf t - 1 + 1)%Z with (monthOf t) by lia. reflexivity.
Qed.

Lemma formatDate_step t :
  (1000 <= yearOf t)%Z -> (yearOf (t + 1) <= 9999)%Z ->
  String.compare (formatDate (JS.LocalDay t)) (formatDate (JS.LocalDay (t + 1)%Z))
  = Lt.
Proof.
  intros Hlo Hhi. rewrite !formatDate_fields.
  destruct (civil_fields_range t) as [Hm Hd].
  pose proof (dayOf_monthLength t) as Hlen.
  pose proof (civil_from_days_succ t) as Hs.
  rewrite (civil_fields (t + 1)) in Hs.
  assert (Hy : (yearOf t <= yearOf (t + 1))%Z) by (apply yearOf_mono; lia).
  destruct (_ <? _)%Z eqn:E.
  - injection Hs as -> -> ->.
    rewrite string_compare_append by reflexivity.
    rewrite string_compare_refl.
    rewrite (string_compare_append "-" "-") by reflexivity.
    change (String.compare "-" "-") with Eq. cbv iota.
    rewrite string_compare_append by reflexivity.
    rewrite string_compare_refl.
    rewrite (string_compare_append "-" "-") by reflexivity.
    change (String.compare "-" "-") with Eq. cbv iota.
    apply pad_text_lt; lia.
  - destruct (monthOf t =? 12)%Z eqn:E12.
    + injection Hs as Hy1 -> ->. rewrite Hy1 in *.
      destruct (year_text_step (yearOf t) ltac:(lia)) as (L1 & L2 & Hlt).
      rewrite string_compare_append by congruence.
      rewrite Hlt. reflexivity.
    + injection Hs as -> -> ->.
      rewrite string_compare_append by reflexivity.
      rewrite string_compare_refl.
      rewrite (string_compare_append "-" "-") by reflexivity.
      change (String.compare "-" "-") with Eq. cbv iota.
      rewrite string_compare_append
        by (rewrite !pad_text_length by lia; reflexivity).
      rewrite pad_text_lt by lia. reflexivity.
Qed.

Lemma fourDigits_between a t b :
  (a <= t <= b)%Z -> fourDigits a = true -> fourDigits b = true ->
  fourDigits t = true.
Proof.
  unfold fourDigits. intros [Ha Hb] Fa Fb.
  pose proof (yearOf_mono a t Ha). pose proof (yearOf_mono t b Hb). lia.
Qed.

Lemma fourDigits_modern t : fourDigits t = true -> modern t = true.
Proof. unfold fourDigits, modern. lia. Qed.

Lemma formatDate_lt a b :
  fourDigits a = true -> fourDigits b = true -> (a < b)%Z ->
  String.compare (formatDate (JS.LocalDay a)) (formatDate (JS.LocalDay b)) = Lt.
Proof.
  intros Fa Fb Hab.
  apply (compare_steps (fun t => formatDate (JS.LocalDay t))); [|exact Hab].
  intros t Ht.
  pose proof (fourDigits_between a t b ltac:(lia) Fa Fb) as F1.
  pose proof (fourDigits_between a (t + 1)%Z b ltac:(lia) Fa Fb) as F2.
  unfold fourDigits in F1, F2. apply formatDate_step; lia.
Qed.

Lemma formatDate_compare a b :
  fourDigits a = true -> fourDigits b = true ->
  String.compare (formatDate (JS.LocalDay a)) (formatDate (JS.LocalDay b))
  = (a ?= b)%Z.
Proof.
  intros Fa Fb. destruct (Z.compare_spec a b) as [->|H|H].
  - apply string_compare_refl.
  - apply formatDate_lt; assumption.
  - rewrite String.compare_antisym, (formatDate_lt b a) by assumption.
    reflexivity.
Qed.

(** X21: for years of four digits the order of the texts [formatDate]
    writes, by code units, is the order of the days; between the years
    999 and 1000, and 9999 and 10000, it is not. *)
Theorem formatDate_chronological :
  (forall a b,
     fourDigits a = true -> fourDigits b = true ->
     String.compare (formatDate (JS.LocalDay a)) (formatDate (JS.LocalDay b))
     = (a ?= b)%Z)
  /\ String_gt (formatDate (JS.LocalDay (-354286)))
               (formatDate (JS.LocalDay (-354285))) = true
  /\ String_gt (formatDate (JS.LocalDay 2932896))
               (formatDate (JS.LocalDay 2932897)) = true.
Proof.
  split; [exact formatDate_compare|].
  split; vm_compute; reflexivity.
Qed.

(** 2024-06-09 is before 2024-06-10. *)
Lemma formatDate_chronological_witness :
  String.compare (formatDate (JS.LocalDay 19883)) (formatDate (JS.LocalDay 19884))
  = Lt.
Proof.
  apply (proj1 formatDate_chronological 19883%Z 19884%Z);
    vm_compute; reflexivity.
Defined.

Lemma formatDate_not_empty t :
  fourDigits t = true -> String.eqb (formatDate (JS.LocalDay t)) "" = false.
Proof.
  intros F. rewrite formatDate_fields.
  pose proof (year_text_length (yearOf t)) as L.
  unfold fourDigits in F. specialize (L ltac:(lia)).
  destruct (JS.String_ (Some (yearOf t))); [discriminate L|reflexivity].
Qed.

Lemma String_gt_formatDate a b :
  fourDigits a = true -> fourDigits b = true ->
  String_gt (formatDate (JS.LocalDay a)) (formatDate (JS.LocalDay b))
  = (b <? a)%Z.
Proof.
  intros Fa Fb. unfold String_gt. rewrite formatDate_compare by assumption.
  rewrite Z.ltb_antisym. unfold Z.leb. destruct (a ?= b)%Z; reflexivity.
Qed.

Lemma eqb_formatDate a b :
  fourDigits a = true -> fourDigits b = true ->
  String.eqb (formatDate (JS.LocalDay a)) (formatDate (JS.LocalDay b))
  = (a =? b)%Z.
Proof.
  intros Fa Fb. destruct (Z.eqb_spec a b) as [->|Hne].
  - apply String.eqb_refl.
  - apply String.eqb_neq. intros E. apply Hne.
    apply formatDate_inj; auto using fourDigits_modern.
Qed.

Lemma shifted_date t k :
  modern t = true ->
  formatDate (addDays (parseDate (formatDate (JS.LocalDay t))) (Some k))
  = formatDate (JS.LocalDay (t + k)%Z).
Proof.
  intros M. rewrite parseDate_formatDate by exact M.
  rewrite addDays_LocalDay by (apply modern_not_short, M). reflexivity.
Qed.

(** X22: with the selected day [s] not after today [n], in years of
    four digits, Previous goes to the day before, Next to the day after
    but not beyond today, Next undoes Previous, and a picked date is
    taken unless it is after today; no text picked changes nothing. *)
Theorem navigator_moves s n :
  (s <= n)%Z -> fourDigits (s - 1) = true -> fourDigits n = true ->
  let selectedDate := formatDate (JS.LocalDay s) in
  let todayValue := formatDate (JS.LocalDay n) in
  previousDate selectedDate = formatDate (JS.LocalDay (s - 1)%Z)
  /\ nextDate selectedDate todayValue
     = formatDate (JS.LocalDay (Z.min (s + 1) n))
  /\ nextDate (previousDate selectedDate) todayValue = selectedDate
  /\ (forall v,
        fourDigits v = true ->
        pickDate selectedDate todayValue (formatDate (JS.LocalDay v))
        = formatDate (JS.LocalDay (Z.min v n)))
  /\ pickDate selectedDate todayValue "" = selectedDate.
Proof.
  intros Hsn F1 Fn selectedDate todayValue.
  assert (Fs : fourDigits s = true)
    by (apply (fourDigits_between (s - 1)%Z s n); auto; lia).
  assert (Hprev : previousDate selectedDate = formatDate (JS.LocalDay (s - 1)%Z)).
  { unfold previousDate, selectedDate.
    rewrite shifted_date by (apply fourDigits_modern, Fs).
    do 2 f_equal. }
  split; [exact Hprev|]. split; [|split; [|split]].
  - unfold nextDate, selectedDate, todayValue.
    rewrite eqb_formatDate by assumption.
    destruct (Z.eqb_spec s n) as [->|Hne].
    + rewrite Z.min_r by lia. reflexivity.
    + rewrite shifted_date by (apply fourDigits_modern, Fs).
      assert (Fs1 : fourDigits (s + 1)%Z = true)
        by (apply (fourDigits_between s (s + 1)%Z n); auto; lia).
      rewrite String_gt_formatDate by assumption.
      replace (n <? s + 1)%Z with false by lia.
      rewrite Z.min_l by lia. reflexivity.
  - rewrite Hprev. unfold nextDate, todayValue.
    rewrite eqb_formatDate by assumption.
    replace (s - 1 =? n)%Z with false by lia.
    rewrite shifted_date by (apply fourDigits_modern, F1).
    replace (s - 1 + 1)%Z with s by lia. fold selectedDate.
    unfold selectedDate. rewrite String_gt_formatDate by assumption.
    replace (n <? s)%Z with false by lia. reflexivity.
  - intros v Fv. unfold pickDate, todayValue.
    rewrite formatDate_not_empty by exact Fv.
    rewrite String_gt_formatDate by assumption.
    destruct (Z.ltb_spec n v).
    + rewrite Z.min_r by lia. reflexivity.
    + rewrite Z.min_l by lia. reflexivity.
  - reflexivity.
Qed.

(** From 2024-06-09 with today 2024-06-10: Next goes to today. *)
Lemma navigator_moves_witness :
  nextDate "2024-06-09" "2024-06-10" = "2024-06-10".
Proof.
  apply (proj1 (proj2 (navigator_moves 19883 19884 ltac:(lia)
                         ltac:(vm_compute; reflexivity)
                         ltac:(vm_compute; reflexivity)))).
Defined.

(** ** Sets and sorting *)

Lemma includes_In dates date : includes dates date = true <-> In date dates.
Proof.
  unfold includes. rewrite existsb_exists. split.
  - intros (x & Hin & E). apply String.eqb_eq in E. subst x. exact Hin.
  - intros Hin. exists date. split; [exact Hin|apply String.eqb_refl].
Qed.

Lemma Set_add_In members value d :
  In d (Set_add members value) <-> In d members \/ d = value.
Proof.
  unfold Set_add. destruct (includes members value) eqn:E.
  - apply includes_In in E. split; [auto|]. intros [H| ->]; assumption.
  - rewrite in_app_iff. simpl. intuition.
Qed.

Lemma Set_add_NoDup members value :
  List.NoDup members -> List.NoDup (Set_add members value).
Proof.
  intros Hnd. unfold Set_add. destruct (includes members value) eqn:E.
  - exact Hnd.
  - apply List.NoDup_app; [exact Hnd|repeat constructor; simpl; tauto|].
    intros x Hx [<-|[]]. apply includes_In in Hx. congruence.
Qed.

Lemma Set_add_length members value :
  (length (Set_add members value) <= S (length members))%nat.
Proof.
  unfold Set_add. destruct (includes members value).
  - lia.
  - rewrite length_app. simpl. lia.
Qed.

Lemma fold_Set_add_In values : forall members d,
  In d (fold_left Set_add values members) <-> In d members \/ In d values.
Proof.
  induction values as [|v values IH]; intros members d; simpl.
  - tauto.
  - rewrite IH, Set_add_In. intuition.
Qed.

Lemma fold_Set_add_NoDup values : forall members,
  List.NoDup members -> List.NoDup (fold_left Set_add values members).
Proof.
  induction values as [|v values IH]; intros members Hnd; simpl.
  - exact Hnd.
  - apply IH, Set_add_NoDup, Hnd.
Qed.

Lemma fold_Set_add_length values : forall members,
  (length (fold_left Set_add values members)
   <= length members + length values)%nat.
Proof.
  induction values as [|v values IH]; intros members; simpl.
  - lia.
  - pose proof (IH (Set_add members v)).
    pose proof (Set_add_length members v). lia.
Qed.

Lemma new_Set_In values d : In d (new_Set values) <-> In d values.
Proof. unfold new_Set. rewrite fold_Set_add_In. simpl. tauto. Qed.

Lemma new_Set_NoDup values : List.NoDup (new_Set values).
Proof. apply fold_Set_add_NoDup. constructor. Qed.

Lemma new_Set_length values : (length (new_Set values) <= length values)%nat.
Proof. apply (fold_Set_add_length values []). Qed.

Lemma Set_delete_In members value d :
  In d (Set_delete members value) <-> In d members /\ d <> value.
Proof.
  unfold Set_delete. rewrite filter_In, negb_true_iff, String.eqb_neq.
  reflexivity.
Qed.

Lemma Set_delete_length members value :
  (length (Set_delete members value) <= length members)%nat.
Proof. apply List.filter_length_le. Qed.

Lemma sort_insert_In value sorted d :
  In d (sort_insert value sorted) <-> d = value \/ In d sorted.
Proof.
  induction sorted as [|head rest IH]; simpl.
  - intuition.
  - destruct (String_gt value head); simpl; [rewrite IH|]; intuition.
Qed.

Lemma sort_insert_length value sorted :
  length (sort_insert value sorted) = S (length sorted).
Proof.
  induction sorted as [|head rest IH]; simpl; [reflexivity|].
  destruct (String_gt value head); simpl; [rewrite IH|]; reflexivity.
Qed.

Lemma Array_sort_In values d : In d (Array_sort values) <-> In d values.
Proof.
  induction values as [|v values IH]; simpl; [tauto|].
  rewrite sort_insert_In, IH. intuition.
Qed.

Lemma Array_sort_length values : length (Array_sort values) = length values.
Proof.
  induction values as [|v values IH]; simpl; [reflexivity|].
  rewrite sort_insert_length, IH. reflexivity.
Qed.

Lemma sort_insert_Sorted value sorted :
  ~ In value sorted -> Sorted before sorted ->
  Sorted before (sort_insert value sorted).
Proof.
  induction sorted as [|head rest IH]; intros Hnot Hs; simpl.
  - repeat constructor.
  - assert (Hne : value <> head) by (intros ->; apply Hnot; left; reflexivity).
    unfold String_gt. destruct (String.compare value head) eqn:E.
    + apply String.compare_eq_iff in E. contradiction.
    + constructor; [exact Hs|constructor; exact E].
    + apply Sorted_inv in Hs as [Hs Hhd].
      assert (Hlt : before head value).
      { unfold before. rewrite String.compare_antisym, E. reflexivity. }
      constructor.
      * apply IH; [intros H; apply Hnot; right; exact H|exact Hs].
      * destruct rest as [|second rest]; simpl.
        -- constructor. exact Hlt.
        -- destruct (String_gt value second); constructor; [|exact Hlt].
           inversion Hhd. assumption.
Qed.

Lemma Array_sort_Sorted values :
  List.NoDup values -> Sorted before (Array_sort values).
Proof.
  induction values as [|v values IH]; intros Hnd; simpl.
  - constructor.
  - apply List.NoDup_cons_iff in Hnd as [Hnot Hnd].
    apply sort_insert_Sorted; [|apply IH, Hnd].
    rewrite Array_sort_In. exact Hnot.
Qed.

Lemma Sorted_increasing texts : Sorted before texts -> increasing texts.
Proof.
  intros Hs. apply Sorted_StronglySorted in Hs;
    [|intros a b c; apply string_compare_lt_trans].
  induction Hs as [|x rest Hs IH Hall]; intros i j a b Hi Hj Hij.
  - rewrite lookup_nil in Hi. discriminate Hi.
  - destruct j as [|j]; [lia|]. cbn in Hj. destruct i as [|i]; cbn in Hi.
    + injection Hi as <-. rewrite List.Forall_forall in Hall.
      apply Hall. apply list_elem_of_In. eapply list_elem_of_lookup_2, Hj.
    + apply (IH i j); [assumption..|lia].
Qed.

Lemma Array_sort_increasing values :
  List.NoDup values -> increasing (Array_sort values).
Proof. intros Hnd. apply Sorted_increasing, Array_sort_Sorted, Hnd. Qed.

Lemma Set_delete_NoDup members value :
  List.NoDup members -> List.NoDup (Set_delete members value).
Proof. apply List.NoDup_filter. Qed.

(** ** The week planner *)

Lemma planned_updateWeekPlan st weekKey dates :
  planned (updateWeekPlan st weekKey dates) weekKey = dates.
Proof.
  unfold planned, updateWeekPlan. cbn [weekPlans].
  rewrite lookup_insert_eq. reflexivity.
Qed.

Lemma confirmed_updateWeekPlan st weekKey dates :
  isWeekPlanConfirmed (updateWeekPlan st weekKey dates) weekKey = false.
Proof.
  unfold isWeekPlanConfirmed, updateWeekPlan. cbn [confirmedWeeks].
  rewrite lookup_insert_eq. reflexivity.
Qed.

Lemma isLiftingDay_updateWeekPlan st date dates :
  isLiftingDay (updateWeekPlan st (getWeekKey (parseDate date)) dates) date
  = includes dates date.
Proof.
  unfold isLiftingDay, updateWeekPlan. cbn [weekPlans].
  rewrite lookup_insert_eq. reflexivity.
Qed.

(** X23: a tick on a fourth date changes nothing; a tick that is taken
    adds the date to the plan of the week, which then has at most three
    dates; taking a tick away removes the date; either way the week is
    no more confirmed, and a date of that week is a lifting day exactly
    after the tick. *)
Theorem weekDayChange_selection st weekKey date :
  ((3 <= length (new_Set (planned st weekKey)))%nat ->
   weekDayChange st weekKey date true = st)
  /\ ((length (new_Set (planned st weekKey)) < 3)%nat ->
      let st' := weekDayChange st weekKey date true in
      (forall d, In d (planned st' weekKey)
                 <-> In d (planned st weekKey) \/ d = date)
      /\ (length (planned st' weekKey) <= 3)%nat
      /\ isWeekPlanConfirmed st' weekKey = false
      /\ (getWeekKey (parseDate date) = weekKey ->
          isLiftingDay st' date = true))
  /\ (let st' := weekDayChange st weekKey date false in
      (forall d, In d (planned st' weekKey)
                 <-> In d (planned st weekKey) /\ d <> date)
      /\ (length (planned st' weekKey) <= length (planned st weekKey))%nat
      /\ isWeekPlanConfirmed st' weekKey = false
      /\ (getWeekKey (parseDate date) = weekKey ->
          isLiftingDay st' date = false)).
Proof.
  unfold weekDayChange. fold (planned st weekKey).
  split; [|split].
  - intros H. apply Nat.leb_le in H. rewrite H. reflexivity.
  - intros H. apply Nat.leb_gt in H. rewrite H. cbv zeta.
    rewrite planned_updateWeekPlan, confirmed_updateWeekPlan.
    split; [|split; [|split]].
    + intros d. rewrite Array_sort_In, Set_add_In, new_Set_In. reflexivity.
    + rewrite Array_sort_length. apply Nat.leb_gt in H.
      pose proof (Set_add_length (new_Set (planned st weekKey)) date).
      unfold ISODate in *. lia.
    + reflexivity.
    + intros <-. rewrite isLiftingDay_updateWeekPlan.
      apply includes_In. rewrite Array_sort_In, Set_add_In. auto.
  - cbv zeta. rewrite planned_updateWeekPlan, confirmed_updateWeekPlan.
    split; [|split; [|split]].
    + intros d. rewrite Array_sort_In, Set_delete_In, new_Set_In. reflexivity.
    + rewrite Array_sort_length.
      pose proof (Set_delete_length (new_Set (planned st weekKey)) date).
      pose proof (new_Set_length (planned st weekKey)).
      unfold ISODate in *. lia.
    + reflexivity.
    + intros <-. rewrite isLiftingDay_updateWeekPlan.
      apply not_true_iff_false. rewrite includes_In.
      rewrite Array_sort_In, Set_delete_In. tauto.
Qed.

(** The state with Monday and Wednesday planned for the week of
    2024-06-09, and a tick on Friday. *)
Lemma weekDayChange_selection_witness :
  let st := updateWeekPlan (juneState "2024-06-01" []) "2024-06-09"
              ["2024-06-10"; "2024-06-12"] in
  isLiftingDay (weekDayChange st "2024-06-09" "2024-06-14" true) "2024-06-14"
  = true.
Proof.
  intros st.
  apply (proj1 (proj2 (weekDayChange_selection st "2024-06-09" "2024-06-14"))).
  - vm_compute. lia.
  - vm_compute. reflexivity.
Defined.

(** X24: the dates a change of a tick stores are in growing order of
    their texts, without repetition; dates in years of four digits are
    in the order of the calendar. *)
Theorem weekDayChange_sorted st weekKey date checked :
  checked = false \/ (length (new_Set (planned st weekKey)) < 3)%nat ->
  let dates := planned (weekDayChange st weekKey date checked) weekKey in
  increasing dates
  /\ List.NoDup dates
  /\ (forall i j a b,
        dates !! i = Some (formatDate (JS.LocalDay a)) ->
        dates !! j = Some (formatDate (JS.LocalDay b)) ->
        fourDigits a = true -> fourDigits b = true ->
        (i < j)%nat -> (a < b)%Z).
Proof.
  intros Hgo dates.
  assert (Hd : exists values, List.NoDup values /\ dates = Array_sort values).
  { unfold dates, weekDayChange. fold (planned st weekKey).
    destruct checked.
    - destruct Hgo as [Hgo|Hgo]; [discriminate Hgo|].
      apply Nat.leb_gt in Hgo. rewrite Hgo, planned_updateWeekPlan.
      eexists. split; [|reflexivity].
      apply Set_add_NoDup, new_Set_NoDup.
    - rewrite planned_updateWeekPlan. eexists. split; [|reflexivity].
      apply Set_delete_NoDup, new_Set_NoDup. }
  destruct Hd as (values & Hnd & Hd). clearbody dates. subst dates.
  pose proof (Array_sort_increasing values Hnd) as Hinc.
  split; [exact Hinc|]. split.
  - clear Hinc. induction values as [|v values IH]; simpl; [constructor|].
    apply List.NoDup_cons_iff in Hnd as [Hnot Hnd]. specialize (IH Hnd).
    revert IH. rewrite <- Array_sort_In in Hnot. revert Hnot.
    generalize (Array_sort values). intros sorted.
    induction sorted as [|head rest IHs]; simpl; intros Hnot Hs.
    + repeat constructor. simpl. tauto.
    + destruct (String_gt v head).
      * apply List.NoDup_cons_iff in Hs as [Hh Hs].
        constructor; [|apply IHs; tauto].
        rewrite sort_insert_In. intros [->|H]; tauto.
      * constructor; [exact Hnot|exact Hs].
  - intros i j a b Hi Hj Fa Fb Hij.
    pose proof (Hinc i j _ _ Hi Hj Hij) as Hlt.
    rewrite formatDate_compare in Hlt by assumption.
    apply Z.compare_lt_iff. exact Hlt.
Qed.

(** Friday ticked before Monday: the plan lists Monday first. *)
Lemma weekDayChange_sorted_witness :
  let st := updateWeekPlan (juneState "2024-06-01" []) "2024-06-09"
              ["2024-06-14"] in
  increasing (planned (weekDayChange st "2024-06-09" "2024-06-10" true)
                      "2024-06-09").
Proof.
  intros st.
  apply (weekDayChange_sorted st "2024-06-09" "2024-06-10" true).
  right. vm_compute. lia.
Defined.

(** ** The fast planner *)

Lemma monthLength_bounds y m : (28 <= monthLength y m <= 31)%Z.
Proof.
  unfold monthLength.
  destruct (m =? 2)%Z; [destruct (isLeapYear y); lia|].
  destruct (_ || _); lia.
Qed.

(** Past the last day of a month comes the next month. *)
Lemma civil_from_days_beyond t k :
  (monthLength (yearOf t) (monthOf t) < dayOf t + k)%Z ->
  (dayOf t + k <= monthLength (yearOf t) (monthOf t) + 28)%Z ->
  (yearOf (t + k), monthOf (t + k))
  = if (monthOf t =? 12)%Z then ((yearOf t + 1)%Z, 1%Z)
    else (yearOf t, (monthOf t + 1)%Z).
Proof.
  intros Hlo Hhi.
  set (last := monthLength (yearOf t) (monthOf t)) in *.
  pose proof (dayOf_monthLength t) as Hd. fold last in Hd.
  set (j := (last - dayOf t)%Z).
  pose proof (civil_from_days_within t j ltac:(lia) ltac:(unfold j; lia)) as Hj.
  pose proof (civil_from_days_succ (t + j)) as Hs.
  unfold yearOf at 1 2 3 4, monthOf at 1 2 3 4, dayOf at 1 2 in Hs.
  rewrite Hj in Hs. cbn [fst snd] in Hs. fold last in Hs.
  replace (dayOf t + j <? last)%Z with false in Hs by (unfold j; lia).
  set (first := (t + j + 1)%Z) in *.
  assert (Hf : (yearOf first, monthOf first, dayOf first)
               = if (monthOf t =? 12)%Z then ((yearOf t + 1)%Z, 1%Z, 1%Z)
                 else (yearOf t, (monthOf t + 1)%Z, 1%Z)).
  { rewrite <- civil_fields. exact Hs. }
  assert (Hd1 : dayOf first = 1%Z)
    by (destruct (monthOf t =? 12)%Z; congruence).
  pose proof (monthLength_bounds (yearOf first) (monthOf first)) as Hb.
  pose proof (civil_from_days_within first (k - j - 1)%Z
                ltac:(unfold j; lia) ltac:(unfold j; lia)) as Hw.
  replace (first + (k - j - 1))%Z with (t + k)%Z in Hw by (unfold first; lia).
  unfold yearOf at 1, monthOf at 1. rewrite Hw. cbn [fst snd].
  destruct (monthOf t =? 12)%Z; congruence.
Qed.

Lemma formatDate_nonempty date : String.eqb (formatDate date) "" = false.
Proof.
  unfold formatDate. destruct (JS.String_ (JS.getFullYear date)); reflexivity.
Qed.

Lemma fastStartChange_dates st monthKey t :
  modern t = true ->
  fastStartChange st monthKey (formatDate (JS.LocalDay t))
  = updateFastPlan st monthKey
      [formatDate (JS.LocalDay t); formatDate (JS.LocalDay (t + 1)%Z);
       formatDate (JS.LocalDay (t + 2)%Z)].
Proof.
  intros M. unfold fastStartChange. rewrite formatDate_nonempty.
  cbv zeta. cbn [map]. rewrite !shifted_date by exact M.
  rewrite Z.add_0_r. reflexivity.
Qed.

Lemma fasting_updateFastPlan st monthKey dates :
  fasting (updateFastPlan st monthKey dates) monthKey = dates.
Proof.
  unfold fasting, updateFastPlan. cbn [fastPlans].
  rewrite lookup_insert_eq. reflexivity.
Qed.

(** X25: a start date makes the plan of the month the three days from
    it on, complete and not confirmed; no start date makes it empty
    and incomplete. *)
Theorem fastStartChange_plan st monthKey :
  (forall t,
     modern t = true ->
     let st' := fastStartChange st monthKey (formatDate (JS.LocalDay t)) in
     fasting st' monthKey
     = [formatDate (JS.LocalDay t); formatDate (JS.LocalDay (t + 1)%Z);
        formatDate (JS.LocalDay (t + 2)%Z)]
     /\ isMonthPlanComplete st' monthKey = true
     /\ isMonthPlanConfirmed st' monthKey = false)
  /\ (let st' := fastStartChange st monthKey "" in
      fasting st' monthKey = []
      /\ isMonthPlanComplete st' monthKey = false
      /\ isMonthPlanConfirmed st' monthKey = false).
Proof.
  split.
  - intros t M. cbv zeta. rewrite fastStartChange_dates by exact M.
    rewrite fasting_updateFastPlan.
    unfold isMonthPlanComplete, isMonthPlanConfirmed, updateFastPlan.
    cbn [fastPlans confirmedMonths]. rewrite !lookup_insert_eq. auto.
  - cbv zeta. unfold fastStartChange. cbn [String.eqb].
    rewrite fasting_updateFastPlan.
    unfold isMonthPlanComplete, isMonthPlanConfirmed, updateFastPlan.
    cbn [fastPlans confirmedMonths]. rewrite !lookup_insert_eq. auto.
Qed.

(** A fast from 2024-06-10. *)
Lemma fastStartChange_plan_witness :
  fasting (fastStartChange (juneState "2024-06-01" []) "2024-06" "2024-06-10")
          "2024-06"
  = ["2024-06-10"; "2024-06-11"; "2024-06-12"].
Proof.
  apply (proj1 (fastStartChange_plan (juneState "2024-06-01" []) "2024-06")
               19884%Z).
  vm_compute. reflexivity.
Defined.

Lemma lastFastStart_pieces monthKey y m :
  map JS.Number (JS.split "-" monthKey) = [Some y; Some m] ->
  lastFastStart monthKey
  = JS.int_add (getDaysInMonth (Some y) (Some (m - 1)%Z)) (Some (-2)%Z).
Proof. intros H. unfold lastFastStart. rewrite H. reflexivity. Qed.

Lemma getDaysInMonth_of_month y m :
  (100 <= y)%Z -> (1 <= m <= 12)%Z ->
  getDaysInMonth (Some y) (Some (m - 1)%Z) = Some (monthLength y m).
Proof.
  intros Hy Hm.
  pose proof (last_day_of_month y (m - 1) ltac:(lia)) as Hl.
  replace (m - 1 + 1)%Z with m in Hl by lia. rewrite <- Hl.
  unfold getDaysInMonth, JS.int_add, JS.new_Date.
  assert (E : (0 <=? y)%Z && (y <=? 99)%Z = false) by lia.
  rewrite E. unfold JS.getDate, dayOf.
  replace (m - 1 + 1)%Z with m by lia. reflexivity.
Qed.

Lemma lastFastStart_month t :
  modern t = true ->
  lastFastStart (getMonthKey (JS.LocalDay t))
  = Some (monthLength (yearOf t) (monthOf t) - 2)%Z.
Proof.
  intros M.
  rewrite (lastFastStart_pieces _ _ _ (getMonthKey_pieces t M)).
  destruct (civil_fields_range t) as [Hm _]. unfold modern in M.
  rewrite getDaysInMonth_of_month by lia.
  unfold JS.int_add. f_equal.
Qed.

Lemma getMonthKey_same a b :
  modern a = true -> modern b = true ->
  getMonthKey (JS.LocalDay a) = getMonthKey (JS.LocalDay b) ->
  (yearOf a, monthOf a) = (yearOf b, monthOf b).
Proof.
  intros Ma Mb E.
  pose proof (getMonthKey_pieces a Ma) as Pa.
  pose proof (getMonthKey_pieces b Mb) as Pb.
  rewrite E, Pb in Pa. injection Pa as Hy Hm. congruence.
Qed.

Lemma getMonthKey_fields t :
  getMonthKey (JS.LocalDay t)
  = JS.String_ (Some (yearOf t)) ++ "-" ++ pad (Some (monthOf t)).
Proof.
  unfold getMonthKey, JS.getFullYear, JS.getMonth.
  rewrite civil_fields. cbn [fst snd JS.int_add].
  replace (monthOf t - 1 + 1)%Z with (monthOf t) by lia. reflexivity.
Qed.

Lemma isFastDay_formatDate st t :
  modern t = true ->
  isFastDay st (formatDate (JS.LocalDay t))
  = includes (fasting st (getMonthKey (JS.LocalDay t)))
             (formatDate (JS.LocalDay t)).
Proof.
  intros M. unfold isFastDay, fasting.
  rewrite parseDate_formatDate by exact M.
  destruct (fastPlans st !! _); reflexivity.
Qed.

(** X26: the planner of the month of a start date allows a start up to
    two days before the last day of the month; from such a start all
    three days are fast days; from a later start the third day lies in
    the next month and is a fast day only by the plan of that month. *)
Theorem fastStartChange_fast_days st t :
  modern t = true ->
  let monthKey := getMonthKey (JS.LocalDay t) in
  let st' := fastStartChange st monthKey (formatDate (JS.LocalDay t)) in
  let last := monthLength (yearOf t) (monthOf t) in
  lastFastStart monthKey = Some (last - 2)%Z
  /\ ((dayOf t <= last - 2)%Z ->
      forall k, (0 <= k <= 2)%Z ->
      isFastDay st' (formatDate (JS.LocalDay (t + k)%Z)) = true)
  /\ ((last - 2 < dayOf t)%Z ->
      isFastDay st' (formatDate (JS.LocalDay (t + 2)%Z))
      = isFastDay st (formatDate (JS.LocalDay (t + 2)%Z))).
Proof.
  intros M monthKey st' last.
  split; [exact (lastFastStart_month t M)|]. split.
  - intros Hd k Hk.
    assert (Mk : modern (t + k)%Z = true) by (apply (modern_mono t); [lia|exact M]).
    rewrite isFastDay_formatDate by exact Mk.
    assert (Hkey : getMonthKey (JS.LocalDay (t + k)%Z) = monthKey).
    { unfold monthKey. rewrite !getMonthKey_fields.
      unfold yearOf at 1, monthOf at 1.
      rewrite (civil_from_days_within t k) by (fold last; lia).
      reflexivity. }
    rewrite Hkey. unfold st'. rewrite fastStartChange_dates by exact M.
    rewrite fasting_updateFastPlan. apply includes_In.
    assert (Hc : (k = 0 \/ k = 1 \/ k = 2)%Z) by lia.
    destruct Hc as [->|[->| ->]]; [rewrite Z.add_0_r | | ]; simpl; auto.
  - intros Hd.
    assert (M2 : modern (t + 2)%Z = true) by (apply (modern_mono t); [lia|exact M]).
    unfold isFastDay. rewrite parseDate_formatDate by exact M2.
    unfold st'. rewrite fastStartChange_dates by exact M.
    unfold updateFastPlan. cbn [fastPlans].
    rewrite lookup_insert_ne; [reflexivity|].
    intros E. apply (getMonthKey_same t (t + 2)%Z M M2) in E.
    pose proof (monthLength_bounds (yearOf t) (monthOf t)) as Hb.
    pose proof (dayOf_monthLength t) as Hle.
    pose proof (civil_from_days_beyond t 2 ltac:(fold last; lia)
                  ltac:(fold last; lia)) as Hn.
    rewrite <- E in Hn. destruct (monthOf t =? 12)%Z eqn:E12.
    + injection Hn as Hy _. lia.
    + injection Hn as Hm. lia.
Qed.

(** A fast from 2024-06-28, the last start the planner of June allows:
    2024-06-30 is a fast day. *)
Lemma fastStartChange_fast_days_witness :
  isFastDay (fastStartChange (juneState "2024-06-01" []) "2024-06" "2024-06-28")
            "2024-06-30" = true.
Proof.
  apply (proj1 (proj2 (fastStartChange_fast_days (juneState "2024-06-01" [])
                         19902%Z ltac:(vm_compute; reflexivity)))
               ltac:(vm_compute; discriminate) 2%Z ltac:(lia)).
Defined.

(** ** Start-up *)

(** X27: on start-up the state in memory, loaded from the stored item,
    is written back exactly when that item is missing, empty,
    unparseable, not an object, or an object whose [trackingStart] is
    missing or empty; what is written then starts tracking at the
    current date, or at the empty text the item had. *)
Theorem connectedCallback_saves now stored :
  let appState := loadState now stored in
  (connectedCallback appState stored = None
   <-> exists raw o,
         stored = Item raw (Some (JsonObject o)) /\ raw <> ""
         /\ p_trackingStart o = Some (trackingStart appState)
         /\ trackingStart appState <> "")
  /\ (forall saved,
        connectedCallback appState stored = Some saved ->
        saved = appState
        /\ (trackingStart saved = formatDate now \/ trackingStart saved = "")).
Proof.
  cbv zeta. split.
  - split.
    + destruct stored as [|raw [[| |o]|]]; simpl; try discriminate;
        destruct (String.eqb raw "") eqn:Eraw; try discriminate.
      destruct (p_trackingStart o) as [start|] eqn:Es; [|discriminate].
      destruct (String.eqb start "") eqn:Ee; [discriminate|].
      intros _. exists raw, o. cbn. rewrite Es.
      apply String.eqb_neq in Eraw, Ee. auto.
    + intros (raw & o & -> & Hraw & Hs & Hne). simpl.
      apply String.eqb_neq in Hraw. rewrite Hraw in *. simpl in *.
      rewrite Hs. apply String.eqb_neq in Hne. rewrite Hne. reflexivity.
  - intros saved.
    destruct stored as [|raw [[| |o]|]]; simpl;
      try (destruct (String.eqb raw "")); simpl;
      try (intros [= <-]; auto).
    destruct (p_trackingStart o) as [start|] eqn:Es.
    + destruct (String.eqb start "") eqn:Ee; [|discriminate].
      apply String.eqb_eq in Ee. subst start. intros [= <-].
      split; [reflexivity|]. right. cbn. rewrite Es. reflexivity.
    + intros [= <-]. split; [reflexivity|]. left. cbn. rewrite Es.
      reflexivity.
Qed.

(** The stored text that has only week plans is written back. *)
Lemma connectedCallback_saves_witness :
  trackingStart (loadState june10 (Item weekOnlyText (Some (JsonObject weekOnly))))
  = formatDate june10
  \/ trackingStart (loadState june10 (Item weekOnlyText (Some (JsonObject weekOnly))))
     = "".
Proof.
  apply (proj2 (connectedCallback_saves june10
                  (Item weekOnlyText (Some (JsonObject weekOnly))))
               (loadState june10 (Item weekOnlyText (Some (JsonObject weekOnly))))).
  vm_compute. reflexivity.
Defined.

(** ** The goal charts *)

Lemma strict_eq_yes_iff v : strict_eq v yes = true <-> v = Some yes.
Proof. unfold strict_eq. apply bool_decide_eq_true. Qed.

(** X28: a complete day has a value in the diet row, 1 exactly when
    the diet requirement is met, and a value in the weight row; a date
    without a record has none in either; the lifting and fast rows
    have a value exactly on lifting and fast days, 1 exactly when the
    day is such a day and the answer is yes. *)
Theorem goal_rows st date :
  (isDayComplete st (getDay st date) date = true ->
   dietValue st date
   = Some (if dietRequirementSatisfied (getDay st date) then 1 else 0)%Z
   /\ weightValue st date <> None)
  /\ (obj_get (days st) date = None ->
      dietValue st date = None /\ weightValue st date = None)
  /\ (liftingValue st date = None <-> isLiftingDay st date = false)
  /\ (fastValue st date = None <-> isFastDay st date = false)
  /\ (liftingValue st date = Some 1%Z
      <-> isLiftingDay st date = true
          /\ weightLiftingDone (getDay st date) = Some yes)
  /\ (fastValue st date = Some 1%Z
      <-> isFastDay st date = true
          /\ waterFastDone (getDay st date) = Some yes).
Proof.
  split; [|split; [|split; [|split; [|split]]]].
  - intros Hc. unfold dietValue, weightValue. cbv zeta.
    unfold isDayComplete in Hc. cbv zeta in Hc.
    apply andb_prop in Hc as [Hc _]. apply andb_prop in Hc as [Hc _].
    apply andb_prop in Hc as [Hdiet Hw].
    apply andb_prop in Hdiet as [Hdiet _]. apply andb_prop in Hdiet as [He _].
    rewrite He. cbn [orb negb]. split; [reflexivity|].
    apply andb_prop in Hw as [Hm _].
    destruct (JS.Number_isFinite (weightMorning (getDay st date))).
    + cbn [orb negb]. discriminate.
    + cbn [orb] in Hm. rewrite Hm.
      destruct (JS.Number_isFinite (weightNight (getDay st date)));
        cbn [orb negb]; discriminate.
  - intros Hnone. unfold dietValue, weightValue, getDay. rewrite Hnone.
    split; reflexivity.
  - unfold liftingValue. destruct (isLiftingDay st date); cbn [negb].
    + destruct (strict_eq _ null); split; discriminate.
    + tauto.
  - unfold fastValue. destruct (isFastDay st date); cbn [negb].
    + destruct (strict_eq _ null); split; discriminate.
    + tauto.
  - unfold liftingValue. destruct (isLiftingDay st date); cbn [negb].
    + rewrite <- strict_eq_yes_iff.
      destruct (weightLiftingDone (getDay st date)) as [[]|];
        cbn; split; try tauto; try discriminate; intros [_ H]; discriminate H.
    + split; [discriminate|intros [H _]; discriminate H].
  - unfold fastValue. destruct (isFastDay st date); cbn [negb].
    + rewrite <- strict_eq_yes_iff.
      destruct (waterFastDone (getDay st date)) as [[]|];
        cbn; split; try tauto; try discriminate; intros [_ H]; discriminate H.
    + split; [discriminate|intros [H _]; discriminate H].
Qed.

(** Nothing is recorded for June 9. *)
Lemma goal_rows_witness :
  dietValue (juneState "2024-06-01" []) "2024-06-09" = None
  /\ weightValue (juneState "2024-06-01" []) "2024-06-09" = None.
Proof.
  apply (proj1 (proj2 (goal_rows (juneState "2024-06-01" []) "2024-06-09"))).
  reflexivity.
Defined.

(** ** The progress bar *)

Lemma Qc_lt_bool_true a b : Qc_lt_bool a b = true -> (a < b)%Qc.
Proof.
  unfold Qc_lt_bool, Qclt. intros H. apply negb_true_iff in H.
  apply Qnot_le_lt. intros Hle. apply Qle_bool_iff in Hle. congruence.
Qed.

Lemma Qc_lt_bool_false a b : Qc_lt_bool a b = false -> (b <= a)%Qc.
Proof.
  unfold Qc_lt_bool, Qcle. intros H. apply negb_false_iff in H.
  apply Qle_bool_iff. exact H.
Qed.

Ltac to_Q :=
  unfold Qcle, Qclt, Qcminus, Qcdiv, Qcmult, Qcplus, Qcopp, Qcinv in *;
  cbn [this Q2Qc] in *; rewrite ?Qred_correct in *.

Lemma this_minus (a b : Qc) : (this (a - b)%Qc == this a - this b)%Q.
Proof.
  unfold Qcminus, Qcplus, Qcopp. cbn [this Q2Qc].
  rewrite !Qred_correct. reflexivity.
Qed.

Lemma this_percent (x t : Qc) :
  (this (x / t * Q2Qc 100)%Qc == this x * / this t * 100)%Q.
Proof.
  unfold Qcdiv, Qcmult, Qcinv. cbn [this Q2Qc].
  rewrite !Qred_correct. reflexivity.
Qed.

Lemma clamp_cases (x : Qc) :
  let p := Qc_min (Qc_max x 0%Qc) (Q2Qc 100) in
  (0 <= p /\ p <= Q2Qc 100)%Qc
  /\ ((Q2Qc 100 <= x)%Qc -> p = Q2Qc 100)
  /\ ((x <= 0)%Qc -> p = 0%Qc)
  /\ ((0 <= x)%Qc -> (x <= Q2Qc 100)%Qc -> p = x).
Proof.
  cbv zeta. unfold Qc_min, Qc_max.
  destruct (Qc_lt_bool x 0) eqn:E0.
  - apply Qc_lt_bool_true in E0.
    assert (E1 : Qc_lt_bool (Q2Qc 100) 0 = false) by reflexivity.
    rewrite E1. repeat split; try (intros; apply Qc_is_canon); to_Q;
      try lra; intros; lra.
  - apply Qc_lt_bool_false in E0.
    destruct (Qc_lt_bool (Q2Qc 100) x) eqn:E1.
    + apply Qc_lt_bool_true in E1.
      repeat split; try (intros; apply Qc_is_canon); to_Q;
        try lra; intros; lra.
    + apply Qc_lt_bool_false in E1.
      repeat split; try (intros; apply Qc_is_canon); to_Q;
        try lra; intros; lra.
Qed.

Lemma ratio_bounds (x t : Q) :
  (0 < t)%Q ->
  ((t <= x -> 100 <= x * / t * 100)
   /\ (x <= 0 -> x * / t * 100 <= 0)
   /\ (0 <= x -> 0 <= x * / t * 100)
   /\ (x <= t -> x * / t * 100 <= 100))%Q.
Proof.
  intros Ht. change (x * / t)%Q with (x / t)%Q.
  repeat split; intros Hx.
  - assert (1 <= x / t)%Q by (apply Qle_shift_div_l; [exact Ht|lra]). lra.
  - assert (x / t <= 0)%Q by (apply Qle_shift_div_r; [exact Ht|lra]). lra.
  - assert (0 <= x / t)%Q by (apply Qle_shift_div_l; [exact Ht|lra]). lra.
  - assert (x / t <= 1)%Q by (apply Qle_shift_div_r; [exact Ht|lra]). lra.
Qed.

(** X29: the width of the progress bar is between 0 and 100; it is
    100 when the start weight or the current average is at or below
    the goal of 170, it is 0 when the current average is at or above a
    start weight over the goal, and in between it is the share of the
    way from the start weight to the goal, in percent. *)
Theorem progress_bounds (startWeight currentAvg : Qc) :
  (0 <= progress startWeight currentAvg
   /\ progress startWeight currentAvg <= Q2Qc 100)%Qc
  /\ ((startWeight <= GOAL_WEIGHT_LBS)%Qc ->
      progress startWeight currentAvg = Q2Qc 100)
  /\ ((GOAL_WEIGHT_LBS < startWeight)%Qc ->
      ((currentAvg <= GOAL_WEIGHT_LBS)%Qc ->
       progress startWeight currentAvg = Q2Qc 100)
      /\ ((startWeight <= currentAvg)%Qc ->
          progress startWeight currentAvg = 0%Qc)
      /\ ((GOAL_WEIGHT_LBS <= currentAvg)%Qc ->
          (currentAvg <= startWeight)%Qc ->
          progress startWeight currentAvg
          = ((startWeight - currentAvg) / (startWeight - GOAL_WEIGHT_LBS)
             * Q2Qc 100)%Qc)).
Proof.
  unfold progress. cbv zeta.
  pose proof (this_minus startWeight GOAL_WEIGHT_LBS) as Et.
  pose proof (this_minus startWeight currentAvg) as Ex.
  pose proof (this_percent (startWeight - currentAvg)
                           (startWeight - GOAL_WEIGHT_LBS)) as Er.
  revert Et Ex Er.
  generalize (startWeight - GOAL_WEIGHT_LBS)%Qc as t.
  generalize (startWeight - currentAvg)%Qc as x.
  intros x t Et Ex Er.
  assert (E100 : (this (Q2Qc 100) == 100)%Q) by reflexivity.
  assert (E0 : (this 0%Qc == 0)%Q) by reflexivity.
  split; [exact (proj1 (clamp_cases _))|]. split.
  - intros Hs.
    assert (E : Qc_lt_bool 0 t = false).
    { apply not_true_iff_false. intros H. apply Qc_lt_bool_true in H.
      unfold Qcle, Qclt in *. lra. }
    rewrite E. destruct (clamp_cases (Q2Qc 100)) as (_ & C100 & _).
    cbv zeta in C100. apply C100, Qcle_refl.
  - intros Hs.
    assert (Ht : (0 < this t)%Q) by (unfold Qclt in Hs; lra).
    assert (E : Qc_lt_bool 0 t = true).
    { apply not_false_iff_true. intros H. apply Qc_lt_bool_false in H.
      unfold Qcle in H. lra. }
    rewrite E.
    destruct (ratio_bounds (this x) (this t) Ht) as (R1 & R2 & R3 & R4).
    destruct (clamp_cases (x / t * Q2Qc 100)%Qc) as (_ & C100 & C0 & Cx).
    cbv zeta in C100, C0, Cx.
    generalize dependent (x / t * Q2Qc 100)%Qc. intros r Er C100 C0 Cx.
    split; [|split].
    + intros Hc. apply C100. unfold Qcle in *. lra.
    + intros Hc. apply C0. unfold Qcle in *. lra.
    + intros Hlo Hhi. apply Cx; unfold Qcle in *; lra.
Qed.

(** From 200 lbs with an average of 185: half of the way. *)
Lemma progress_bounds_witness :
  progress (Q2Qc 200) (Q2Qc 185) = Q2Qc 50.
Proof.
  transitivity ((Q2Qc 200 - Q2Qc 185) / (Q2Qc 200 - GOAL_WEIGHT_LBS)
                * Q2Qc 100)%Qc.
  - apply (proj2 (proj2 (proj2 (proj2 (progress_bounds (Q2Qc 200) (Q2Qc 185)))
                           ltac:(vm_compute; reflexivity)))).
    + vm_compute. discriminate.
    + vm_compute. discriminate.
  - apply Qc_is_canon. vm_compute. reflexivity.
Defined.

(** ** The Yes and No buttons *)

Lemma yesNo_of_with_yesNo date day key value :
  yesNo_of (withDefaults date (with_yesNo day key value)) key = Some value.
Proof. destruct key; reflexivity. Qed.

(** X30: a Yes or No button on a property that reads otherwise makes
    it read that answer; on a property that reads that answer already
    it makes it read [null]; so pressing the active answer of the diet
    exception leaves the day incomplete. *)
Theorem pressYesNo_toggles st date key next :
  let st' := pressYesNo st date key next in
  (yesNo_of (getDay st date) key <> Some next ->
   yesNo_of (getDay st' date) key = Some next)
  /\ (yesNo_of (getDay st date) key = Some next ->
      yesNo_of (getDay st' date) key = Some null
      /\ (key = YesNoKey.dietException ->
          isDayComplete st' (getDay st' date) date = false)).
Proof.
  cbv zeta. unfold pressYesNo, setDayValue.
  rewrite getDay_updateDay, yesNo_of_with_yesNo. split.
  - intros Hne. unfold toggleYesNo, strict_eq.
    rewrite bool_decide_eq_false_2 by exact Hne. reflexivity.
  - intros He. unfold toggleYesNo, strict_eq.
    rewrite bool_decide_eq_true_2 by exact He. split; [reflexivity|].
    intros ->. unfold isDayComplete. cbn. reflexivity.
Qed.

(** The diet exception of June 8 is answered yes; Yes again clears it. *)
Lemma pressYesNo_toggles_witness :
  let st := juneState "2024-06-01" [("2024-06-08", excepted "2024-06-08")] in
  isDayComplete (pressYesNo st "2024-06-08" YesNoKey.dietException yes)
    (getDay (pressYesNo st "2024-06-08" YesNoKey.dietException yes) "2024-06-08")
    "2024-06-08" = false.
Proof.
  intros st.
  apply (proj2 (pressYesNo_toggles st "2024-06-08" YesNoKey.dietException yes)).
  - vm_compute. reflexivity.
  - reflexivity.
Defined.
